(** * Family Group Report (gramps/plugins/textreport/familygroup.py)

    A shallow embedding of the [FamilyGroup] report class: the records it
    reads through the database interface, the calls it makes on the document
    backend, and the rendering routines [dump_parent_event],
    [dump_parent_parents], [dump_parent], [dump_marriage], [dump_child_event],
    [dump_child], [dump_family] and [write_report], followed by the theorems
    about them. *)

From Stdlib Require Import Ascii.
From stdpp Require Import gmap strings list pretty.

Open Scope string_scope.
Open Scope list_scope.
Open Scope Z_scope.

(** ** Data model *)

(** A handle is the opaque string key under which the database stores an
    object. *)
Abbreviation handle := string (only parsing).

(** An accessor that returns a handle returns [None] when there is none;
    Python tests it with [if h:], which also rejects the empty string. *)
Definition truthy (h : option handle) : bool :=
  match h with
  | None => false
  | Some s => negb (bool_decide (s = ""))
  end.

(** The handle itself when [if h:] holds. *)
Definition present (h : option handle) : option handle :=
  if truthy h then h else None.

(** [if s:] on a string. *)
Definition nonempty (s : string) : bool := negb (bool_decide (s = "")).

(** Modelled from the spec: the enumerated kinds of event ([EventType]);
    the report only tells Marriage from the others. *)
Module EventType.
Inductive t :=
| UNKNOWN | CUSTOM (s : string)
| MARRIAGE | MARR_SETTL | MARR_LIC | MARR_CONTR | MARR_BANNS
| ENGAGEMENT | DIVORCE | DIV_FILING | ANNULMENT | MARR_ALT
| ADOPT | BIRTH | DEATH | BAPTISM | BURIAL | CENSUS | CHRISTEN
| OCCUPATION | RESIDENCE.
#[global] Instance eq_dec : EqDecision t.
Proof. solve_decision. Defined.
End EventType.

(** Modelled from the spec: the role under which an event is referenced
    ([EventRoleType]); the report only looks for FAMILY and PRIMARY. *)
Module EventRoleType.
Inductive t :=
| UNKNOWN | CUSTOM (s : string)
| PRIMARY | CLERGY | CELEBRANT | AIDE | BRIDE | GROOM | WITNESS
| FAMILY | INFORMANT.
#[global] Instance eq_dec : EqDecision t.
Proof. solve_decision. Defined.
End EventRoleType.

Module AttributeType.
Inductive t :=
| UNKNOWN | CUSTOM (s : string)
| CASTE | DESCRIPTION | ID | NATIONAL | NUM_CHILD | SSN | NICKNAME
| CAUSE | AGENCY | AGE | FATHER_AGE | MOTHER_AGE | WITNESS | TIME
| OCCUPATION.
#[global] Instance eq_dec : EqDecision t.
Proof. solve_decision. Defined.
End AttributeType.

Module NameType.
Inductive t := UNKNOWN | CUSTOM (s : string) | AKA | BIRTH | MARRIED.
#[global] Instance eq_dec : EqDecision t.
Proof. solve_decision. Defined.
End NameType.

Module NoteType.
Inductive t :=
| UNKNOWN | CUSTOM (s : string)
| GENERAL | RESEARCH | TRANSCRIPT | PERSON | FAMILY | EVENT
| HTML_CODE | TODO | LINK.
#[global] Instance eq_dec : EqDecision t.
Proof. solve_decision. Defined.
End NoteType.

(** The three kinds of typed value the report hands to [self._get_type]. *)
Inductive GrampsType :=
| of_event_type (t : EventType.t)
| of_attribute_type (t : AttributeType.t)
| of_name_type (t : NameType.t).
Coercion of_event_type : EventType.t >-> GrampsType.
Coercion of_attribute_type : AttributeType.t >-> GrampsType.
Coercion of_name_type : NameType.t >-> GrampsType.

(** Dates, names and addresses are only ever passed on to the display
    functions; the report does not look inside them. *)
Module Date.
Record t := mk {
  get_quality : Z;
  get_modifier : Z;
  get_ymd : Z * Z * Z;
  get_text : string }.
Definition empty : t := mk 0 0 (0, 0, 0) "".
End Date.

Module Name.
Record t := mk {
  get_type : NameType.t;
  get_first_name : string;
  get_surname : string }.
Definition empty : t := mk NameType.BIRTH "" "".
End Name.

Module Address.
Record t := mk {
  get_date_object : Date.t;
  get_street : string;
  get_city : string;
  get_country : string }.
End Address.

Module Attribute.
Record t := mk {
  get_type : AttributeType.t;
  get_value : string }.
End Attribute.

Module Note.
Record t := mk {
  get_styledtext : string;
  get_format : Z;
  get_type : NoteType.t }.
End Note.

(** Modelled from the spec: a reference to an event, with the role of the
    participant.  The entries of an event-reference list are always
    [EventRef] objects, which Python treats as true: the guards
    [if event_ref:] never fail.  The class defines no equality of its own,
    so [==] and [!=] on two references compare the objects themselves:
    [id] is the identity of the object, as Python's [id()] gives it. *)
Module EventRef.
Record t := mk {
  id : Z;
  ref : handle;
  get_role : EventRoleType.t }.
#[global] Instance eq_dec : EqDecision t.
Proof. solve_decision. Defined.
End EventRef.

Module ChildRef.
Record t := mk { ref : handle }.
End ChildRef.

(** Modelled from the spec: the read-only views of events, people and
    families, one field per accessor the report calls. *)
Module Event.
Record t := mk {
  get_type : EventType.t;
  get_date_object : Date.t;
  get_place_handle : option handle;
  get_description : string;
  get_attribute_list : list Attribute.t }.
End Event.

Module Person.
Inductive gender := FEMALE | MALE | UNKNOWN.
#[global] Instance gender_eq_dec : EqDecision gender.
Proof. solve_decision. Defined.

Record t := mk {
  get_gramps_id : option string;
  get_gender : gender;
  get_primary_name : Name.t;
  get_birth_ref : option EventRef.t;
  get_death_ref : option EventRef.t;
  get_primary_event_ref_list : list EventRef.t;
  get_address_list : list Address.t;
  get_note_list : list handle;
  get_attribute_list : list Attribute.t;
  get_alternate_names : list Name.t;
  get_family_handle_list : list handle;
  get_main_parents_family_handle : option handle }.

(** Modelled from the spec: [Person()], the empty person. *)
Definition empty : t :=
  mk None UNKNOWN Name.empty None None [] [] [] [] [] [] None.
End Person.

Module Family.
Record t := mk {
  get_gramps_id : option string;
  get_father_handle : option handle;
  get_mother_handle : option handle;
  get_child_ref_list : list ChildRef.t;
  get_event_ref_list : list EventRef.t;
  get_attribute_list : list Attribute.t;
  get_note_list : list handle }.
End Family.

(** Modelled from the spec: the database, looked up by handle.  One table
    per kind of object, and the family handles in the order
    [get_family_handles(sort_handles=True)] returns them. *)
Record DbReadBase := mkDb {
  person_map : gmap string Person.t;
  family_map : gmap string Family.t;
  event_map : gmap string Event.t;
  note_map : gmap string Note.t;
  get_family_handles : list handle;
  get_number_of_families : Z }.

(** ** The document backend and the progress meter *)

Inductive index_type := INDEX_TYPE_ALP | INDEX_TYPE_TOC.

Record IndexMark := mkIndexMark {
  mark_key : string;
  mark_type : index_type;
  mark_level : Z }.

(** Modelled from the spec: the document backend and the progress meter,
    as the calls made on them.  One constructor per method the report calls
    on [self.doc] and on the meter of [self._user]. *)
Inductive call :=
| start_table (name style : string)
| end_table
| start_row
| end_row
| start_cell (style : string) (span : Z)
| end_cell
| start_paragraph (style : string)
| end_paragraph
| write_text (text : string) (mark : option IndexMark)
| write_styled_note (styledtext : string) (format : Z) (style : string)
                    (contains_html : bool)
| page_break
| begin_progress (title message : string) (steps : Z)
| step_progress
| end_progress.

(** ** Computations: the calls made so far, and a value or an exception *)

Inductive exn :=
| HandleError (h : handle)
| RecursionError.

Inductive result (A : Type) :=
| Ok (a : A) (out : list call)
| Raise (e : exn) (out : list call).
Arguments Ok {A} a out.
Arguments Raise {A} e out.

(** A computation that runs after the calls [pre] were made. *)
Definition after {A} (pre : list call) (m : result A) : result A :=
  match m with
  | Ok a out => Ok a (pre ++ out)
  | Raise e out => Raise e (pre ++ out)
  end.

Definition result_bind {A B} (f : A -> result B) (m : result A) : result B :=
  match m with
  | Ok a o1 => after o1 (f a)
  | Raise e o1 => Raise e o1
  end.

#[global] Instance result_ret : MRet result := fun A a => Ok a [].
#[global] Instance result_mbind : MBind result := @result_bind.

Definition raise {A} (e : exn) : result A := Raise e [].

(** A single call on the document backend (or the progress meter). *)
Definition doc (c : call) : result unit := Ok tt [c].

(** The calls a computation made, whether it returned or raised. *)
Definition calls {A} (m : result A) : list call :=
  match m with
  | Ok _ out => out
  | Raise _ out => out
  end.

(** The computation returned. *)
Definition returns {A} (m : result A) : Prop :=
  match m with
  | Ok _ _ => True
  | Raise _ _ => False
  end.

(** Every call the computation made satisfies [P]. *)
Definition emits {A} (P : call -> Prop) (m : result A) : Prop :=
  Forall P (calls m).

(** The calls on the progress meter, as opposed to the document. *)
Definition on_meter (c : call) : bool :=
  match c with
  | begin_progress _ _ _ | step_progress | end_progress => true
  | _ => false
  end.

(** The calls that only the children table makes: they carry one of its
    styles. *)
Definition in_children_table (c : call) : bool :=
  match c with
  | start_table _ style => bool_decide (style = "FGR-ChildTable")
  | start_cell style _ =>
      bool_decide (style ∈ ["FGR-TextChild1"; "FGR-TextChild2";
                            "FGR-ChildName"])
  | start_paragraph style => bool_decide (style = "FGR-ChildText")
  | _ => false
  end.

(** The number of ticks of the meter among the calls. *)
Definition ticks (out : list call) : nat :=
  length (List.filter (fun c => match c with
                                | step_progress => true
                                | _ => false
                                end) out).

(** The style of the leading cell of each row, row after row. *)
Fixpoint leading_styles (out : list call) : list string :=
  match out with
  | [] => []
  | c :: rest =>
      match c, rest with
      | start_row, start_cell style _ :: _ => style :: leading_styles rest
      | _, _ => leading_styles rest
      end
  end.

(** The rows of a group are closed by the last one: it has the style with
    the closing border, and the rows before it the open style. *)
Fixpoint closed_by_last (styles : list string) : bool :=
  match styles with
  | [] => false
  | [style] => bool_decide (style = "FGR-TextChild2")
  | style :: rest =>
      bool_decide (style = "FGR-TextChild1") && closed_by_last rest
  end.

(** [part] occurs in [out] as a run of consecutive calls. *)
Definition occurs_in (part out : list call) : Prop :=
  exists pre post, out = pre ++ part ++ post.

(** [for x in l: body(x)] *)
Fixpoint for_ {A} (l : list A) (body : A -> result unit) : result unit :=
  match l with
  | [] => mret tt
  | x :: rest => body x ;; for_ rest body
  end.

(** [if c: body] with no [else]. *)
Definition when (c : bool) (body : result unit) : result unit :=
  if c then body else mret tt.

(** ** Python string formatting *)

(** [str(x)] of an optional string, as ["%s" % x] prints it. *)
Definition str (x : option string) : string :=
  match x with
  | None => "None"
  | Some s => s
  end.

(** [fmt % v] for one positional value [v], already printed: the first
    [%d] or [%s] is replaced and [%%] stands for a percent sign.  The
    catalogues keep the conversions of the message, so the other outcomes
    of the operator do not arise. *)
Fixpoint percent (fmt : string) (v : string) : string :=
  match fmt with
  | String "%"%char (String "d"%char rest) => v +:+ rest
  | String "%"%char (String "s"%char rest) => v +:+ rest
  | String "%"%char (String "%"%char rest) => String "%"%char (percent rest v)
  | String c rest => String c (percent rest v)
  | EmptyString => EmptyString
  end.

(** [fmt % {k1: v1, ...}] with conversions [%(k)s]. *)
Inductive fmt_state := Lit | Pct | Key (k : string) | Conv (k : string).

Definition lookup_key (k : string) (d : list (string * string)) : string :=
  match list_find (fun kv => kv.1 = k) d with
  | Some (_, kv) => kv.2
  | None => ""
  end.

Fixpoint percent_dict_go (st : fmt_state) (d : list (string * string))
    (fmt : string) : string :=
  match fmt with
  | EmptyString => EmptyString
  | String c rest =>
      match st with
      | Lit =>
          if bool_decide (c = "%"%char) then percent_dict_go Pct d rest
          else String c (percent_dict_go Lit d rest)
      | Pct =>
          if bool_decide (c = "("%char) then percent_dict_go (Key "") d rest
          else String c (percent_dict_go Lit d rest)
      | Key k =>
          if bool_decide (c = ")"%char) then percent_dict_go (Conv k) d rest
          else percent_dict_go (Key (k +:+ String c EmptyString)) d rest
      | Conv k => lookup_key k d +:+ percent_dict_go Lit d rest
      end
  end.

Definition percent_dict (fmt : string) (d : list (string * string)) : string :=
  percent_dict_go Lit d fmt.

(** ** The report object *)

(** Modelled from the spec: a family filter, whose
    [apply(db, handles, step)] returns the handles it keeps, ticking [step]
    as it goes. *)
Module Filter.
Record t := mk {
  apply : DbReadBase -> list handle -> result (list handle) }.
End Filter.

(** The fields [__init__] sets on [self]: the database, the filter, the
    option values, and the display functions of the chosen locale and name
    format ([self._], [self._name_display], [self._get_date],
    [self._get_type]). *)
Record FamilyGroup := mkFamilyGroup {
  db : DbReadBase;
  filter : option Filter.t;
  gramps_ids : bool;
  recursive : bool;
  missingInfo : bool;
  generations : bool;
  incFamNotes : bool;
  incParEvents : bool;
  incParAddr : bool;
  incParNotes : bool;
  incParNames : bool;
  incParMar : bool;
  incRelDates : bool;
  incChiMar : bool;
  includeAttrs : bool;
  sgettext : string -> string;
  display : Person.t -> string;
  display_name : Name.t -> string;
  _get_date : Date.t -> string;
  _get_type : GrampsType -> string }.

(** Modelled from the spec: the lookups by handle of the database; a
    handle that does not resolve is a failure of the lookup, which the
    report does not handle. *)
Definition get_person_from_handle (d : DbReadBase) (h : handle)
    : result Person.t :=
  match person_map d !! h with
  | Some p => mret p
  | None => raise (HandleError h)
  end.

Definition get_family_from_handle (d : DbReadBase) (h : handle)
    : result Family.t :=
  match family_map d !! h with
  | Some f => mret f
  | None => raise (HandleError h)
  end.

Definition get_event_from_handle (d : DbReadBase) (h : handle)
    : result Event.t :=
  match event_map d !! h with
  | Some e => mret e
  | None => raise (HandleError h)
  end.

Definition get_note_from_handle (d : DbReadBase) (h : handle)
    : result Note.t :=
  match note_map d !! h with
  | Some n => mret n
  | None => raise (HandleError h)
  end.

(** Modelled from the spec: the scoped progress meter of
    [with self._user.progress(title, message, steps) as step: body].  The
    meter is opened, the body runs, and the meter is closed whether the body
    returned or raised. *)
Definition with_progress {A} (title message : string) (steps : Z)
    (body : result A) : result A :=
  doc (begin_progress title message steps) ;;
  match body with
  | Ok a out => Ok a (out ++ [end_progress])
  | Raise e out => Raise e (out ++ [end_progress])
  end.

Definition step : result unit := doc step_progress.

(** A [for] loop that updates a local variable [s]. *)
Fixpoint for_fold {A S} (l : list A) (s : S) (body : S -> A -> result S)
    : result S :=
  match l with
  | [] => mret s
  | x :: rest => s' ← body s x; for_fold rest s' body
  end.

(** The functions the module imports, taken as parameters:
    [place_displayer.display_event], [ReportUtils.get_person_mark],
    [ReportUtils.get_address_str] and the module-level [_] of the interface
    locale. *)
Record Imports := mkImports {
  display_event : DbReadBase -> Event.t -> option string;
  get_person_mark : DbReadBase -> Person.t -> option IndexMark;
  get_address_str : Address.t -> string;
  glocale_sgettext : string -> string }.

Section FamilyGroup.

Variable gramps : Imports.
Variable self : FamilyGroup.

(** [self._(...)] *)
Local Notation "'_tr' s" := (sgettext self s) (at level 10, only parsing).

(** Lines 125-133: one attribute appended to the description. *)
Definition add_attr_descr (descr : string) (attr : Attribute.t) : string :=
  let descr := if nonempty descr then descr +:+ _tr "; " else descr in
  let attr_type := _get_type self (Attribute.get_type attr) in
  descr +:+ percent_dict (_tr "%(str1)s: %(str2)s")
              [("str1", _tr attr_type); ("str2", Attribute.get_value attr)].

Definition dump_parent_event (name : string) (event : option Event.t)
    : result unit :=
  let '(date, place, descr) :=
    match event with
    | Some event =>
        let date := _get_date self (Event.get_date_object event) in
        let place := default "" (display_event gramps (db self) event) in
        let descr := Event.get_description event in
        let descr :=
          if includeAttrs self
          then fold_left add_attr_descr (Event.get_attribute_list event) descr
          else descr in
        (date, place, descr)
    | None => ("", "", "")
    end in
  doc start_row ;;
  doc (start_cell "FGR-TextContents" 1) ;;
  doc (start_paragraph "FGR-Normal") ;;
  doc (write_text name None) ;;
  doc end_paragraph ;;
  doc end_cell ;;
  when (nonempty descr) (
    doc (start_cell "FGR-TextContentsEnd" 2) ;;
    doc (start_paragraph "FGR-Normal") ;;
    doc (write_text descr None) ;;
    doc end_paragraph ;;
    doc end_cell ;;
    doc end_row ;;
    when (nonempty date || nonempty place) (
      doc start_row ;;
      doc (start_cell "FGR-TextContents" 1) ;;
      doc (start_paragraph "FGR-Normal") ;;
      doc end_paragraph ;;
      doc end_cell)) ;;
  when ((nonempty date || nonempty place) || negb (nonempty descr)) (
    doc (start_cell "FGR-TextContents" 1) ;;
    doc (start_paragraph "FGR-Normal") ;;
    doc (write_text date None) ;;
    doc end_paragraph ;;
    doc end_cell ;;
    doc (start_cell "FGR-TextContentsEnd" 1) ;;
    doc (start_paragraph "FGR-Normal") ;;
    doc (write_text place None) ;;
    doc end_paragraph ;;
    doc end_cell ;;
    doc end_row).

Definition dump_parent_line (name text : string) : result unit :=
  doc start_row ;;
  doc (start_cell "FGR-TextContents" 1) ;;
  doc (start_paragraph "FGR-Normal") ;;
  doc (write_text name None) ;;
  doc end_paragraph ;;
  doc end_cell ;;
  doc (start_cell "FGR-TextContentsEnd" 2) ;;
  doc (start_paragraph "FGR-Normal") ;;
  doc (write_text text None) ;;
  doc end_paragraph ;;
  doc end_cell ;;
  doc end_row.

Definition dump_parent_noteline (name : string) (note : Note.t)
    : result unit :=
  doc start_row ;;
  doc (start_cell "FGR-TextContents" 1) ;;
  doc (start_paragraph "FGR-Normal") ;;
  doc (write_text name None) ;;
  doc end_paragraph ;;
  doc end_cell ;;
  doc (start_cell "FGR-TextContentsEnd" 2) ;;
  doc (write_styled_note (Note.get_styledtext note) (Note.get_format note)
         "FGR-Note"
         (bool_decide (Note.get_type note = NoteType.HTML_CODE))) ;;
  doc end_cell ;;
  doc end_row.

(** The date of the event a birth or death reference points to, or the
    two blanks the variable starts with (lines 185-194, repeated for the
    mother at 206-215 and for a child's spouse at 574-583). *)
Definition ref_date (r : option EventRef.t) : result string :=
  match r with
  | Some r =>
      event ← get_event_from_handle (db self) (EventRef.ref r);
      mret (_get_date self (Event.get_date_object event))
  | None => mret "  "
  end.

(** Lines 178-196 for the father, 199-217 for the mother: the parent and
    the name shown for it. *)
Definition parent_name (h : handle) : result (Person.t * string) :=
  parent ← get_person_from_handle (db self) h;
  let name := display self parent in
  let name :=
    if gramps_ids self then
      match Person.get_gramps_id parent with
      | Some gid => if nonempty gid then name +:+ " (" +:+ gid +:+ ")"
                    else name
      | None => name
      end
    else name in
  if incRelDates self then
    let birth_ref := Person.get_birth_ref parent in
    birth ← ref_date birth_ref;
    let death_ref := Person.get_death_ref parent in
    death ← ref_date death_ref;
    if bool_decide (is_Some birth_ref) || bool_decide (is_Some death_ref)
    then mret (parent, name +:+ " (" +:+ birth +:+ " - " +:+ death +:+ ")")
    else mret (parent, name)
  else mret (parent, name).

(** Lines 220-232 and 237-249: the row naming a parent's parent. *)
Definition dump_parent_parent_row (label name : string)
    (mark : option IndexMark) : result unit :=
  doc start_row ;;
  doc (start_cell "FGR-TextContents" 1) ;;
  doc (start_paragraph "FGR-Normal") ;;
  doc (write_text label None) ;;
  doc end_paragraph ;;
  doc end_cell ;;
  doc (start_cell "FGR-TextContentsEnd" 2) ;;
  doc (start_paragraph "FGR-Normal") ;;
  doc (write_text name mark) ;;
  doc end_paragraph ;;
  doc end_cell ;;
  doc end_row.

Definition dump_parent_parents (person : Person.t) : result unit :=
  let family_handle := Person.get_main_parents_family_handle person in
  '(father, father_name, mother, mother_name) ←
    match present family_handle with
    | Some family_handle =>
        family ← get_family_from_handle (db self) family_handle;
        '(father, father_name) ←
          match present (Family.get_father_handle family) with
          | Some father_handle =>
              '(father, father_name) ← parent_name father_handle;
              mret (Some father, father_name)
          | None => mret (None, "")
          end;
        '(mother, mother_name) ←
          match present (Family.get_mother_handle family) with
          | Some mother_handle =>
              '(mother, mother_name) ← parent_name mother_handle;
              mret (Some mother, mother_name)
          | None => mret (None, "")
          end;
        mret (father, father_name, mother, mother_name)
    | None => mret (None, "", None, "")
    end;
  (if nonempty father_name then
     let mark := father ≫= get_person_mark gramps (db self) in
     dump_parent_parent_row (_tr "Father") father_name mark
   else when (missingInfo self) (dump_parent_line (_tr "Father") "")) ;;
  (if nonempty mother_name then
     let mark := mother ≫= get_person_mark gramps (db self) in
     dump_parent_parent_row (_tr "Mother") mother_name mark
   else when (missingInfo self) (dump_parent_line (_tr "Mother") "")).

(** The event a birth or death reference points to, [None] without one
    (lines 310-314, 318-322, 465-474). *)
Definition ref_event (r : option EventRef.t) : result (option Event.t) :=
  match r with
  | Some r =>
      event ← get_event_from_handle (db self) (EventRef.ref r);
      mret (Some event)
  | None => mret None
  end.

Definition dump_parent (title : string) (person_handle : option handle)
    : result unit :=
  if negb (truthy person_handle) && negb (missingInfo self) then mret tt
  else
    person ←
      match present person_handle with
      | None => mret Person.empty
      | Some person_handle => get_person_from_handle (db self) person_handle
      end;
    let name := display self person in
    doc (start_table title "FGR-ParentTable") ;;
    doc start_row ;;
    doc (start_cell "FGR-ParentHead" 3) ;;
    doc (start_paragraph "FGR-ParentName") ;;
    let mark := get_person_mark gramps (db self) person in
    doc (write_text (percent_dict (_tr "%(str1)s: %(str2)s")
                       [("str1", title); ("str2", name)]) mark) ;;
    when (gramps_ids self) (
      match Person.get_gramps_id person with
      | Some gid =>
          when (nonempty gid) (doc (write_text (" (" +:+ gid +:+ ")") None))
      | None => mret tt
      end) ;;
    doc end_paragraph ;;
    doc end_cell ;;
    doc end_row ;;
    let birth_ref := Person.get_birth_ref person in
    let evtName := _tr "Birth" in
    birth ← ref_event birth_ref;
    when (bool_decide (is_Some birth) || missingInfo self)
      (dump_parent_event evtName birth) ;;
    let death_ref := Person.get_death_ref person in
    let evtName := _tr "Death" in
    death ← ref_event death_ref;
    when (bool_decide (is_Some death) || missingInfo self)
      (dump_parent_event evtName death) ;;
    dump_parent_parents person ;;
    when (incParEvents self) (
      for_ (Person.get_primary_event_ref_list person) (fun event_ref =>
        when (bool_decide (Some (EventRef.id event_ref)
                           ≠ EventRef.id <$> birth_ref)
              && bool_decide (Some (EventRef.id event_ref)
                              ≠ EventRef.id <$> death_ref)) (
          event ← get_event_from_handle (db self) (EventRef.ref event_ref);
          let event_type := _get_type self (Event.get_type event) in
          dump_parent_event (_tr event_type) (Some event)))) ;;
    when (incParAddr self) (
      for_ (Person.get_address_list person) (fun addr =>
        let location := get_address_str gramps addr in
        let date := _get_date self (Address.get_date_object addr) in
        doc start_row ;;
        doc (start_cell "FGR-TextContents" 1) ;;
        doc (start_paragraph "FGR-Normal") ;;
        doc (write_text (_tr "Address") None) ;;
        doc end_paragraph ;;
        doc end_cell ;;
        doc (start_cell "FGR-TextContents" 1) ;;
        doc (start_paragraph "FGR-Normal") ;;
        doc (write_text date None) ;;
        doc end_paragraph ;;
        doc end_cell ;;
        doc (start_cell "FGR-TextContentsEnd" 1) ;;
        doc (start_paragraph "FGR-Normal") ;;
        doc (write_text location None) ;;
        doc end_paragraph ;;
        doc end_cell ;;
        doc end_row)) ;;
    when (incParNotes self) (
      for_ (Person.get_note_list person) (fun notehandle =>
        note ← get_note_from_handle (db self) notehandle;
        dump_parent_noteline (_tr "Note") note)) ;;
    when (includeAttrs self) (
      for_ (Person.get_attribute_list person) (fun attr =>
        let attr_type := _get_type self (Attribute.get_type attr) in
        dump_parent_line (_tr attr_type) (Attribute.get_value attr))) ;;
    when (incParNames self) (
      for_ (Person.get_alternate_names person) (fun alt_name =>
        let name_type := _get_type self (Name.get_type alt_name) in
        let name := display_name self alt_name in
        dump_parent_line (_tr name_type) name)) ;;
    doc end_table.

(** Lines 382-391: the loop that looks for the marriage event and stops
    at the first match. *)
Fixpoint find_marriage (family_list : list EventRef.t)
    : result (option Event.t) :=
  match family_list with
  | [] => mret None
  | event_ref :: rest =>
      event ← get_event_from_handle (db self) (EventRef.ref event_ref);
      if bool_decide (Event.get_type event = EventType.MARRIAGE)
         && (bool_decide (EventRef.get_role event_ref = EventRoleType.FAMILY)
             || bool_decide
                  (EventRef.get_role event_ref = EventRoleType.PRIMARY))
      then mret (Some event)
      else find_marriage rest
  end.

(** [family] comes from a lookup, so [if not family: return] never
    returns. *)
Definition dump_marriage (family : Family.t) : result unit :=
  let family_list := Family.get_event_ref_list family in
  mrg ← find_marriage family_list;
  when (bool_decide (Z.of_nat (length family_list) > 0)
        || missingInfo self || includeAttrs self) (
    doc (start_table "MarriageInfo" "FGR-ParentTable") ;;
    doc start_row ;;
    doc (start_cell "FGR-ParentHead" 3) ;;
    doc (start_paragraph "FGR-ParentName") ;;
    let header := _tr "Marriage" in
    let header :=
      if gramps_ids self
      then header +:+ " (" +:+ str (Family.get_gramps_id family) +:+ ")"
      else header in
    doc (write_text (percent (_tr "%s:") header) None) ;;
    doc end_paragraph ;;
    doc end_cell ;;
    doc end_row ;;
    dump_parent_event (_tr "Marriage") mrg ;;
    for_ family_list (fun event_ref =>
      event ← get_event_from_handle (db self) (EventRef.ref event_ref);
      when (bool_decide (Event.get_type event ≠ EventType.MARRIAGE)) (
        let event_type := _get_type self (Event.get_type event) in
        dump_parent_event (_tr event_type) (Some event))) ;;
    when (includeAttrs self) (
      for_ (Family.get_attribute_list family) (fun attr =>
        let attr_type := _get_type self (Attribute.get_type attr) in
        dump_parent_line (_tr attr_type) (Attribute.get_value attr))) ;;
    when (incFamNotes self) (
      for_ (Family.get_note_list family) (fun notehandle =>
        note ← get_note_from_handle (db self) notehandle;
        dump_parent_noteline (_tr "Note") note)) ;;
    doc end_table).

Definition dump_child_event (text name : string) (event : option Event.t)
    : result unit :=
  let '(date, place) :=
    match event with
    | Some event =>
        let date := _get_date self (Event.get_date_object event) in
        let place_handle := Event.get_place_handle event in
        let place :=
          if truthy place_handle
          then default "" (display_event gramps (db self) event)
          else "" in
        (date, place)
    | None => ("", "")
    end in
  doc start_row ;;
  doc (start_cell text 1) ;;
  doc (start_paragraph "FGR-Normal") ;;
  doc end_paragraph ;;
  doc end_cell ;;
  doc (start_cell "FGR-TextContents" 1) ;;
  doc (start_paragraph "FGR-Normal") ;;
  doc (write_text name None) ;;
  doc end_paragraph ;;
  doc end_cell ;;
  doc (start_cell "FGR-TextContents" 1) ;;
  doc (start_paragraph "FGR-Normal") ;;
  doc (write_text date None) ;;
  doc end_paragraph ;;
  doc end_cell ;;
  doc (start_cell "FGR-TextContentsEnd" 1) ;;
  doc (start_paragraph "FGR-Normal") ;;
  doc (write_text place None) ;;
  doc end_paragraph ;;
  doc end_cell ;;
  doc end_row.

(** The other parent of [family], seen from [person_handle]
    (lines 480-484 and 543-548). *)
Definition spouse_of (person_handle : handle) (family : Family.t)
    : option handle :=
  if bool_decide (Some person_handle = Family.get_father_handle family)
  then Family.get_mother_handle family
  else Family.get_father_handle family.

(** Lines 536-541: the first event of type Marriage. *)
Fixpoint find_child_marriage (event_ref_list : list EventRef.t)
    : result (option Event.t) :=
  match event_ref_list with
  | [] => mret None
  | event_ref :: rest =>
      event ← get_event_from_handle (db self) (EventRef.ref event_ref);
      if bool_decide (Event.get_type event = EventType.MARRIAGE)
      then mret (Some event)
      else find_child_marriage rest
  end.

(** Lines 551-594: the row naming the spouse. *)
Definition dump_child_spouse (family : Family.t) (mrg : option Event.t)
    (index families : Z) (spouse_id : handle) : result unit :=
  doc start_row ;;
  (if bool_decide (is_Some mrg) || bool_decide (index ≠ families)
   then doc (start_cell "FGR-TextChild1" 1)
   else doc (start_cell "FGR-TextChild2" 1)) ;;
  doc (start_paragraph "FGR-Normal") ;;
  doc end_paragraph ;;
  doc end_cell ;;
  doc (start_cell "FGR-TextContents" 1) ;;
  doc (start_paragraph "FGR-Normal") ;;
  doc (write_text (_tr "Spouse") None) ;;
  doc end_paragraph ;;
  doc end_cell ;;
  doc (start_cell "FGR-TextContentsEnd" 2) ;;
  doc (start_paragraph "FGR-Normal") ;;
  spouse ← get_person_from_handle (db self) spouse_id;
  let spouse_name := display self spouse in
  let spouse_name :=
    if gramps_ids self then
      match Person.get_gramps_id spouse with
      | Some gid => if nonempty gid then spouse_name +:+ " (" +:+ gid +:+ ")"
                    else spouse_name
      | None => spouse_name
      end
    else spouse_name in
  spouse_name ←
    (if incRelDates self then
       let birth_ref := Person.get_birth_ref spouse in
       birth ← ref_date birth_ref;
       let death_ref := Person.get_death_ref spouse in
       death ← ref_date death_ref;
       if bool_decide (is_Some birth_ref) || bool_decide (is_Some death_ref)
       then mret (spouse_name +:+ " (" +:+ birth +:+ " - " +:+ death +:+ ")")
       else mret spouse_name
     else mret spouse_name);
  let spouse_name :=
    if gramps_ids self then
      match Family.get_gramps_id family with
      | Some fid => if nonempty fid then spouse_name +:+ " (" +:+ fid +:+ ")"
                    else spouse_name
      | None => spouse_name
      end
    else spouse_name in
  let mark := get_person_mark gramps (db self) spouse in
  doc (write_text spouse_name mark) ;;
  doc end_paragraph ;;
  doc end_cell ;;
  doc end_row.

(** Lines 531-601: the body of the loop over the families of a child;
    it returns the counter [index]. *)
Definition dump_child_family (person_handle : handle) (families : Z)
    (index : Z) (family_handle : handle) : result Z :=
  let index := index + 1 in
  family ← get_family_from_handle (db self) family_handle;
  mrg ← find_child_marriage (Family.get_event_ref_list family);
  let spouse_id := spouse_of person_handle family in
  match present spouse_id with
  | Some spouse_id => dump_child_spouse family mrg index families spouse_id
  | None => mret tt
  end ;;
  when (bool_decide (is_Some mrg)) (
    let evtName := _tr "Marriage" in
    if bool_decide (index = families)
    then dump_child_event "FGR-TextChild2" evtName mrg
    else dump_child_event "FGR-TextChild1" evtName mrg) ;;
  mret index.

(** Lines 496-502: the text of the index cell. *)
Definition child_label (index : Z) (person : Person.t) : string :=
  let index_str := pretty index in
  match Person.get_gender person with
  | Person.MALE => index_str +:+ _tr "acronym for male|M"
  | Person.FEMALE => index_str +:+ _tr "acronym for female|F"
  | _ => percent (_tr "acronym for unknown|%dU") (pretty index)
  end.

Definition dump_child (index : Z) (person_handle : handle) : result unit :=
  person ← get_person_from_handle (db self) person_handle;
  let families := Z.of_nat (length (Person.get_family_handle_list person)) in
  let birth_ref := Person.get_birth_ref person in
  birth ← ref_event birth_ref;
  let death_ref := Person.get_death_ref person in
  death ← ref_event death_ref;
  spouse_count ←
    (if incChiMar self then
       for_fold (Person.get_family_handle_list person) 0
         (fun spouse_count family_handle =>
            family ← get_family_from_handle (db self) family_handle;
            let spouse_id := spouse_of person_handle family in
            if truthy spouse_id then mret (spouse_count + 1)
            else mret spouse_count)
     else mret 0);
  doc start_row ;;
  (if bool_decide (spouse_count ≠ 0) || missingInfo self
      || bool_decide (is_Some death) || bool_decide (is_Some birth)
   then doc (start_cell "FGR-TextChild1" 1)
   else doc (start_cell "FGR-TextChild2" 1)) ;;
  doc (start_paragraph "FGR-ChildText") ;;
  doc (write_text (child_label index person) None) ;;
  doc end_paragraph ;;
  doc end_cell ;;
  let name := display self person in
  let mark := get_person_mark gramps (db self) person in
  doc (start_cell "FGR-ChildName" 3) ;;
  doc (start_paragraph "FGR-ChildText") ;;
  doc (write_text name mark) ;;
  when (gramps_ids self) (
    doc (write_text (" (" +:+ str (Person.get_gramps_id person) +:+ ")")
           None)) ;;
  doc end_paragraph ;;
  doc end_cell ;;
  doc end_row ;;
  when (missingInfo self || bool_decide (is_Some birth)) (
    if bool_decide (spouse_count ≠ 0) || missingInfo self
       || bool_decide (is_Some death)
    then dump_child_event "FGR-TextChild1" (_tr "Birth") birth
    else dump_child_event "FGR-TextChild2" (_tr "Birth") birth) ;;
  when (missingInfo self || bool_decide (is_Some death)) (
    if bool_decide (spouse_count = 0) || negb (incChiMar self)
    then dump_child_event "FGR-TextChild2" (_tr "Death") death
    else dump_child_event "FGR-TextChild1" (_tr "Death") death) ;;
  when (incChiMar self) (
    for_fold (Person.get_family_handle_list person) 0
      (dump_child_family person_handle families) ;;
    mret tt).

(** Lines 638-641: the loop over the children, counting from [index]. *)
Definition dump_children (index : Z) (child_ref_list : list ChildRef.t)
    : result Z :=
  for_fold child_ref_list index (fun index child_ref =>
    dump_child index (ChildRef.ref child_ref) ;;
    mret (index + 1)).

(** The title of a family's section (lines 605-608). *)
Definition family_title (generation : Z) : string :=
  if recursive self && generations self
  then percent (_tr "Family Group Report - Generation %d")
         (pretty generation)
  else _tr "Family Group Report".

(** The body of [dump_family]; [dump_family] inside it is the recursive
    call. *)
Definition dump_family_body (dump_family : handle -> Z -> result unit)
    (family_handle : handle) (generation : Z) : result unit :=
  doc (start_paragraph "FGR-Title") ;;
  let title := family_title generation in
  let mark := mkIndexMark title INDEX_TYPE_TOC 1 in
  doc (write_text title (Some mark)) ;;
  doc end_paragraph ;;
  family ← get_family_from_handle (db self) family_handle;
  dump_parent (_tr "Husband") (Family.get_father_handle family) ;;
  doc (start_paragraph "FGR-blank") ;;
  doc end_paragraph ;;
  when (incParMar self) (
    dump_marriage family ;;
    doc (start_paragraph "FGR-blank") ;;
    doc end_paragraph) ;;
  dump_parent (_tr "Wife") (Family.get_mother_handle family) ;;
  let length := Z.of_nat (length (Family.get_child_ref_list family)) in
  when (bool_decide (length > 0)) (
    doc (start_paragraph "FGR-blank") ;;
    doc end_paragraph ;;
    doc (start_table "FGR-Children" "FGR-ChildTable") ;;
    doc start_row ;;
    doc (start_cell "FGR-ParentHead" 4) ;;
    doc (start_paragraph "FGR-ParentName") ;;
    doc (write_text (_tr "Children") None) ;;
    doc end_paragraph ;;
    doc end_cell ;;
    doc end_row ;;
    dump_children 1 (Family.get_child_ref_list family) ;;
    doc end_table) ;;
  when (recursive self) (
    for_ (Family.get_child_ref_list family) (fun child_ref =>
      child ← get_person_from_handle (db self) (ChildRef.ref child_ref);
      for_ (Person.get_family_handle_list child) (fun child_family_handle =>
        when (bool_decide (child_family_handle ≠ family_handle)) (
          doc page_break ;;
          dump_family child_family_handle (generation + 1))))).

(** [dump_family] with the interpreter's bound on nested calls: a call
    that would nest deeper than [depth] raises [RecursionError]. *)
Fixpoint dump_family (depth : nat) (family_handle : handle)
    (generation : Z) : result unit :=
  match depth with
  | O => raise RecursionError
  | S depth =>
      dump_family_body (dump_family depth) family_handle generation
  end.

(** Lines 665-668: the loop over the families to write. *)
Definition write_families (depth : nat) (fam_list : list handle)
    : result unit :=
  for_ fam_list (fun family_handle =>
    dump_family depth family_handle 1 ;;
    doc page_break ;;
    step).

(** Lines 653-660: the family handles the report is about. *)
Definition filtered_families : result (list handle) :=
  let flist := get_family_handles (db self) in
  match filter self with
  | None => mret flist
  | Some filter =>
      with_progress (glocale_sgettext gramps "Family Group Report")
        (glocale_sgettext gramps "Applying filter...")
        (get_number_of_families (db self))
        (Filter.apply filter (db self) flist)
  end.

Definition write_report (depth : nat) : result unit :=
  fam_list ← filtered_families;
  if bool_decide (fam_list ≠ []) then
    with_progress (glocale_sgettext gramps "Family Group Report")
      (glocale_sgettext gramps "Writing families")
      (Z.of_nat (length fam_list))
      (write_families depth fam_list)
  else
    doc (start_paragraph "FGR-Title") ;;
    doc (write_text (_tr "Family Group Report") None) ;;
    doc end_paragraph.

End FamilyGroup.

(** ** What the rendering routines are expected to emit *)

Section Expected.

Variable gramps : Imports.
Variable self : FamilyGroup.

Local Notation "'_tr' s" := (sgettext self s) (at level 10, only parsing).

(** The references of a list resolve, in order, to the given objects. *)
Definition events_resolve (refs : list EventRef.t) (evs : list Event.t)
    : Prop :=
  Forall2 (fun r e => event_map (db self) !! EventRef.ref r = Some e)
    refs evs.

Definition notes_resolve (hs : list handle) (notes : list Note.t) : Prop :=
  Forall2 (fun h n => note_map (db self) !! h = Some n) hs notes.

(** An event counts as the marriage of the family when its type is
    Marriage and it is referenced with role FAMILY or PRIMARY. *)
Definition is_family_marriage (re : EventRef.t * Event.t) : bool :=
  bool_decide (Event.get_type re.2 = EventType.MARRIAGE)
  && (bool_decide (EventRef.get_role re.1 = EventRoleType.FAMILY)
      || bool_decide (EventRef.get_role re.1 = EventRoleType.PRIMARY)).

(** The first such event, in list order. *)
Definition first_family_marriage (res : list (EventRef.t * Event.t))
    : option Event.t :=
  snd <$> List.find is_family_marriage res.

Definition is_marriage (e : Event.t) : bool :=
  bool_decide (Event.get_type e = EventType.MARRIAGE).

(** The first event of type Marriage, whatever its role. *)
Definition first_marriage (evs : list Event.t) : option Event.t :=
  List.find is_marriage evs.

(** The events listed below the marriage row: those of another type. *)
Definition other_events (evs : list Event.t) : list Event.t :=
  List.filter (fun e => negb (is_marriage e)) evs.

(** The marriage block is wanted when the family has events, or
    missing information is shown, or attributes are included. *)
Definition marriage_block_wanted (family : Family.t) : bool :=
  negb (bool_decide (Family.get_event_ref_list family = []))
  || missingInfo self || includeAttrs self.

(** The row that heads the marriage block. *)
Definition marriage_header (family : Family.t) : list call :=
  let header := _tr "Marriage" in
  let header :=
    if gramps_ids self
    then header +:+ " (" +:+ str (Family.get_gramps_id family) +:+ ")"
    else header in
  [ start_table "MarriageInfo" "FGR-ParentTable";
    start_row;
    start_cell "FGR-ParentHead" 3;
    start_paragraph "FGR-ParentName";
    write_text (percent (_tr "%s:") header) None;
    end_paragraph;
    end_cell;
    end_row ].

(** The rows of one event in a parent or marriage block. *)
Definition parent_event_rows (name : string) (event : option Event.t)
    : list call :=
  calls (dump_parent_event gramps self name event).

Definition other_event_rows (event : Event.t) : list call :=
  parent_event_rows (_tr (_get_type self (Event.get_type event)))
    (Some event).

(** An event row with nothing to show: the name, an empty date and an
    empty place. *)
Definition empty_event_row (name : string) : list call :=
  [ start_row;
    start_cell "FGR-TextContents" 1;
    start_paragraph "FGR-Normal";
    write_text name None;
    end_paragraph;
    end_cell;
    start_cell "FGR-TextContents" 1;
    start_paragraph "FGR-Normal";
    write_text "" None;
    end_paragraph;
    end_cell;
    start_cell "FGR-TextContentsEnd" 1;
    start_paragraph "FGR-Normal";
    write_text "" None;
    end_paragraph;
    end_cell;
    end_row ].

(** What closes the marriage block: the attributes and the notes of the
    family, when they are included. *)
Definition marriage_footer (family : Family.t) (notes : list Note.t)
    : list call :=
  (if includeAttrs self
   then concat (map (fun attr =>
                       calls (dump_parent_line
                                (_tr (_get_type self (Attribute.get_type attr)))
                                (Attribute.get_value attr)))
                  (Family.get_attribute_list family))
   else [])
  ++ (if incFamNotes self
      then concat (map (fun note =>
                          calls (dump_parent_noteline (_tr "Note") note))
                     notes)
      else [])
  ++ [end_table].

(** A row made of a name and a text (see [dump_parent_line]). *)
Definition parent_line (name text : string) : list call :=
  [ start_row;
    start_cell "FGR-TextContents" 1;
    start_paragraph "FGR-Normal";
    write_text name None;
    end_paragraph;
    end_cell;
    start_cell "FGR-TextContentsEnd" 2;
    start_paragraph "FGR-Normal";
    write_text text None;
    end_paragraph;
    end_cell;
    end_row ].

(** The block written for a parent who is not recorded: the heading
    with the display name of the empty person, and rows with nothing in
    them for the birth, the death, the father and the mother. *)
Definition placeholder_block (title : string) : list call :=
  [ start_table title "FGR-ParentTable";
    start_row;
    start_cell "FGR-ParentHead" 3;
    start_paragraph "FGR-ParentName";
    write_text (percent_dict (_tr "%(str1)s: %(str2)s")
                  [("str1", title); ("str2", display self Person.empty)])
      (get_person_mark gramps (db self) Person.empty);
    end_paragraph;
    end_cell;
    end_row ]
  ++ empty_event_row (_tr "Birth")
  ++ empty_event_row (_tr "Death")
  ++ parent_line (_tr "Father") ""
  ++ parent_line (_tr "Mother") ""
  ++ [end_table].

(** The three calls that write the title. *)
Definition title_paragraph (title : string) : list call :=
  [ start_paragraph "FGR-Title";
    write_text title (Some (mkIndexMark title INDEX_TYPE_TOC 1));
    end_paragraph ].

(** What the driver writes for a family whose section is [o]: the
section, a page break, and a tick of the meter. *)
Definition family_page (o : list call) : list call :=
  o ++ [page_break; step_progress].

(** The page written when there is no family to report on. *)
Definition title_only_page : list call :=
  [ start_paragraph "FGR-Title";
    write_text (_tr "Family Group Report") None;
    end_paragraph ].

(** The section of a family without the children table: the title, the
husband, the marriage if it is included, and the wife. *)
Definition parents_section (family : Family.t) (generation : Z)
    : result unit :=
  after (title_paragraph (family_title self generation)) (
    dump_parent gramps self (_tr "Husband") (Family.get_father_handle family) ;;
    doc (start_paragraph "FGR-blank") ;;
    doc end_paragraph ;;
    when (incParMar self) (
      dump_marriage gramps self family ;;
      doc (start_paragraph "FGR-blank") ;;
      doc end_paragraph) ;;
    dump_parent gramps self (_tr "Wife") (Family.get_mother_handle family)).

(** What opens the children table: a blank paragraph, the table and its
header row. *)
Definition children_header : list call :=
  [ start_paragraph "FGR-blank";
    end_paragraph;
    start_table "FGR-Children" "FGR-ChildTable";
    start_row;
    start_cell "FGR-ParentHead" 4;
    start_paragraph "FGR-ParentName";
    write_text (_tr "Children") None;
    end_paragraph;
    end_cell;
    end_row ].

(** The letter that follows the index of a child. *)
Definition sex_code (g : Person.gender) : string :=
  match g with
  | Person.MALE => "M"
  | Person.FEMALE => "F"
  | Person.UNKNOWN => "U"
  end.

(** The row of an event in the group of a child; [style] is the style of
its leading cell. *)
Definition child_event_rows (style name : string) (event : option Event.t)
    : list call :=
  calls (dump_child_event gramps self style name event).


(** The row of the marriage in the group of a child, for the family
counted [index] among [families]. *)
Definition child_marriage_rows (index families : Z) (mrg : option Event.t)
    : list call :=
  match mrg with
  | Some event =>
      child_event_rows
        (if bool_decide (index = families) then "FGR-TextChild2"
         else "FGR-TextChild1")
        (_tr "Marriage") (Some event)
  | None => []
  end.

End Expected.

(** ** A sample database *)

(** The interface locale with no catalogue loaded: [sgettext] returns the
    message itself, without the context that precedes the last bar. *)
Fixpoint after_last_bar (s : string) : option string :=
  match s with
  | EmptyString => None
  | String c rest =>
      match after_last_bar rest with
      | Some t => Some t
      | None => if bool_decide (c = "|"%char) then Some rest else None
      end
  end.

Definition untranslated (msgid : string) : string :=
  default msgid (after_last_bar msgid).

Module Sample.

Definition date (y : Z) : Date.t := Date.mk 0 0 (y, 0, 0) (pretty y).

Definition person (gid : string) (g : Person.gender) (first : string)
    (birth death : option EventRef.t) (families : list handle)
    (parents : option handle) : Person.t :=
  Person.mk (Some gid) g (Name.mk NameType.BIRTH first "Smith")
    birth death (option_list birth ++ option_list death) [] [] [] []
    families parents.

Definition primary (id : Z) (h : handle) : EventRef.t :=
  EventRef.mk id h EventRoleType.PRIMARY.
Definition as_family (id : Z) (h : handle) : EventRef.t :=
  EventRef.mk id h EventRoleType.FAMILY.
Definition as_witness (id : Z) (h : handle) : EventRef.t :=
  EventRef.mk id h EventRoleType.WITNESS.

Definition event (t : EventType.t) (y : Z) (descr : string) : Event.t :=
  Event.mk t (date y) None descr [].

Definition john : Person.t :=
  person "I0001" Person.MALE "John"
    (Some (primary 1 "e-b1")) (Some (primary 2 "e-d1")) ["f-1"] None.
Definition mary : Person.t :=
  person "I0002" Person.FEMALE "Mary"
    (Some (primary 3 "e-b2")) None ["f-1"] None.
Definition tom : Person.t :=
  person "I0003" Person.MALE "Tom" None None ["f-2"] (Some "f-1").
Definition ann : Person.t :=
  person "I0004" Person.FEMALE "Ann"
    (Some (primary 4 "e-b4")) None [] (Some "f-1").
Definition pat : Person.t :=
  person "I0005" Person.UNKNOWN "Pat" None None ["f-3"; "f-4"]
    (Some "f-1").
Definition sue : Person.t :=
  person "I0006" Person.FEMALE "Sue" None None ["f-3"] None.

Definition people : gmap string Person.t :=
  list_to_map
    [ ("p-john", john); ("p-mary", mary); ("p-tom", tom);
      ("p-ann", ann); ("p-pat", pat); ("p-sue", sue) ].

(** John and Mary, their three children, and four events: a marriage
    John and Mary only witnessed, their divorce, and two marriages of
    their own. *)
Definition family_1 : Family.t :=
  Family.mk (Some "F0001") (Some "p-john") (Some "p-mary")
    [ChildRef.mk "p-tom"; ChildRef.mk "p-ann"; ChildRef.mk "p-pat"]
    [as_witness 5 "e-m0"; as_family 6 "e-v1"; as_family 7 "e-m1";
     as_family 8 "e-m2"]
    [] [].
(** Tom married, his wife is not recorded. *)
Definition family_2 : Family.t :=
  Family.mk (Some "F0002") (Some "p-tom") None [] [as_family 9 "e-m3"] [] [].
(** Pat and Sue, no event recorded. *)
Definition family_3 : Family.t :=
  Family.mk (Some "F0003") (Some "p-pat") (Some "p-sue") [] [] [] [].
(** Pat alone. *)
Definition family_4 : Family.t :=
  Family.mk (Some "F0004") (Some "p-pat") None [] [] [] [].
(** A couple whose only event is a marriage they witnessed. *)
Definition family_5 : Family.t :=
  Family.mk (Some "F0005") (Some "p-john") (Some "p-sue") []
    [as_witness 10 "e-m0"] [] [].

Definition families : gmap string Family.t :=
  list_to_map
    [ ("f-1", family_1); ("f-2", family_2); ("f-3", family_3);
      ("f-4", family_4); ("f-5", family_5) ].

Definition witnessed : Event.t := event EventType.MARRIAGE 1924 "civil".
Definition divorce : Event.t := event EventType.DIVORCE 1950 "".
Definition wedding : Event.t := event EventType.MARRIAGE 1925 "church".
Definition renewal : Event.t := event EventType.MARRIAGE 1926 "renewal".

Definition events : gmap string Event.t :=
  list_to_map
    [ ("e-b1", event EventType.BIRTH 1900 "");
      ("e-d1", event EventType.DEATH 1970 "");
      ("e-b2", event EventType.BIRTH 1902 "");
      ("e-b4", event EventType.BIRTH 1930 "");
      ("e-m0", witnessed);
      ("e-v1", divorce);
      ("e-m1", wedding);
      ("e-m2", renewal);
      ("e-m3", event EventType.MARRIAGE 1955 "") ].

Definition database : DbReadBase :=
  mkDb people families events ∅ ["f-1"; "f-2"] 4.

Definition display (p : Person.t) : string :=
  let n := Person.get_primary_name p in
  if nonempty (Name.get_first_name n)
  then Name.get_surname n +:+ ", " +:+ Name.get_first_name n
  else "".

Definition display_name (n : Name.t) : string :=
  Name.get_surname n +:+ ", " +:+ Name.get_first_name n.

Definition get_type (t : GrampsType) : string :=
  match t with
  | of_event_type EventType.MARRIAGE => "Marriage"
  | of_event_type EventType.DIVORCE => "Divorce"
  | of_event_type EventType.BIRTH => "Birth"
  | of_event_type EventType.DEATH => "Death"
  | of_event_type (EventType.CUSTOM s) => s
  | of_attribute_type (AttributeType.CUSTOM s) => s
  | of_name_type (NameType.CUSTOM s) => s
  | _ => "Unknown"
  end.

Definition display_event (d : DbReadBase) (e : Event.t) : option string :=
  None.
Definition get_person_mark (d : DbReadBase) (p : Person.t)
    : option IndexMark :=
  Some (mkIndexMark (display p) INDEX_TYPE_ALP 0).
Definition get_address_str (a : Address.t) : string :=
  Address.get_street a +:+ ", " +:+ Address.get_city a.

(** The report with every option at its default but the ones given. *)
Definition report (recursive missingInfo generations incChiMar : bool)
    : FamilyGroup :=
  mkFamilyGroup database None false recursive missingInfo generations
    false false false false false true false incChiMar false
    untranslated display display_name Date.get_text get_type.

Definition gramps : Imports :=
  mkImports display_event get_person_mark get_address_str untranslated.

(** The marriages of the children are included; nothing else is asked
for. *)
Definition with_marriages : FamilyGroup := report false false false true.

(** The report recurses into the families of the children and numbers the
generations. *)
Definition with_generations : FamilyGroup := report true false true true.

(** Missing information is shown. *)
Definition with_missing : FamilyGroup := report false true false false.

(** The same report on a database that holds no family. *)
Definition on_empty_database : FamilyGroup :=
  mkFamilyGroup (mkDb ∅ ∅ ∅ ∅ [] 0) None false true false true
    false false false false false true false true false
    untranslated display display_name Date.get_text get_type.

Definition family_1_events : list Event.t :=
  [witnessed; divorce; wedding; renewal].

(** What the children of John and Mary look like in the table. *)
Definition family_1_children : list (list call) :=
  [ calls (dump_child gramps with_marriages 1 "p-tom");
    calls (dump_child gramps with_marriages 2 "p-ann");
    calls (dump_child gramps with_marriages 3 "p-pat") ].

(** The sections of the two families the database lists. *)
Definition sections : list (list call) :=
  [ calls (dump_family gramps with_generations 2 "f-1" 1);
    calls (dump_family gramps with_generations 2 "f-2" 1) ].

End Sample.

(** ** Computations: general lemmas *)

Section Result.

Context {A B : Type}.
Implicit Types (m : result A) (f : A -> result B).

Lemma bind_Ok a out f : Ok a out ≫= f = after out (f a).
Proof. reflexivity. Qed.

Lemma after_Ok pre (b : B) out : after pre (Ok b out) = Ok b (pre ++ out).
Proof. reflexivity. Qed.

Lemma after_nil (k : result B) : after [] k = k.
Proof. by destruct k. Qed.

Lemma doc_bind c (k : unit -> result B) : doc c ≫= k = after [c] (k tt).
Proof. reflexivity. Qed.

Lemma bind_Raise e out f : Raise e out ≫= f = Raise e out.
Proof. reflexivity. Qed.

Lemma ret_bind a f : mret a ≫= f = f a.
Proof. change (mret a) with (Ok a []). by rewrite bind_Ok, after_nil. Qed.

Lemma bind_Ok_Ok m f a b o1 o2 :
  m = Ok a o1 -> f a = Ok b o2 -> m ≫= f = Ok b (o1 ++ o2).
Proof. intros -> Hf. by rewrite bind_Ok, Hf. Qed.

Lemma bind_inv_Ok m f b out :
  m ≫= f = Ok b out ->
  exists a o1 o2, m = Ok a o1 /\ f a = Ok b o2 /\ out = o1 ++ o2.
Proof.
  destruct m as [a o1|e o1]; [|done].
  rewrite bind_Ok. destruct (f a) as [b' o2|] eqn:Hf; [|done].
  intros [= -> <-]. by exists a, o1, o2.
Qed.

Lemma calls_bind m f :
  calls (m ≫= f) =
  calls m ++ match m with Ok a _ => calls (f a) | Raise _ _ => [] end.
Proof.
  destruct m as [a o1|e o1].
  - rewrite bind_Ok. simpl. by destruct (f a).
  - simpl. by rewrite app_nil_r.
Qed.

Lemma returns_bind m f :
  returns m -> (forall a, returns (f a)) -> returns (m ≫= f).
Proof.
  destruct m as [a o1|]; [|done]. intros _ Hf.
  rewrite bind_Ok. specialize (Hf a). by destruct (f a).
Qed.

Lemma emits_bind P m f :
  emits P m -> (forall a, emits P (f a)) -> emits P (m ≫= f).
Proof.
  unfold emits. intros Hm Hf. rewrite calls_bind. apply Forall_app.
  split; [done|]. destruct m; [apply Hf | constructor].
Qed.

End Result.

Lemma returns_Ok {A} (m : result A) :
  returns m -> exists a, m = Ok a (calls m).
Proof. destruct m as [a o|]; [|done]. by exists a. Qed.

Lemma returns_unit (m : result unit) : returns m -> m = Ok tt (calls m).
Proof. by destruct m as [[] o|]. Qed.

Lemma bind_assoc {A B C} (m : result A) (f : A -> result B)
    (g : B -> result C) :
  (m ≫= f) ≫= g = m ≫= (fun a => f a ≫= g).
Proof.
  destruct m as [a o1|]; [|done]. rewrite !bind_Ok.
  destruct (f a) as [b o2|]; [|done]. rewrite after_Ok, !bind_Ok.
  destruct (g b); simpl; by rewrite app_assoc.
Qed.

Lemma returns_ret {A} (a : A) : returns (mret a : result A).
Proof. done. Qed.

Lemma returns_doc c : returns (doc c).
Proof. done. Qed.

Lemma when_true m : when true m = m.
Proof. reflexivity. Qed.

Lemma when_false m : when false m = mret tt.
Proof. reflexivity. Qed.

Lemma returns_when c m : (c = true -> returns m) -> returns (when c m).
Proof. destruct c; simpl; auto. Qed.

Lemma returns_for_ {A} (l : list A) body :
  (forall x, x ∈ l -> returns (body x)) -> returns (for_ l body).
Proof.
  induction l as [|x l IH]; intros H; simpl; [done|].
  apply returns_bind; [apply H; left|].
  intros _. apply IH. intros y Hy. apply H. by right.
Qed.

Lemma emits_ret {A} P (a : A) : emits P (mret a : result A).
Proof. constructor. Qed.

Lemma emits_raise {A} P e : emits P (raise e : result A).
Proof. constructor. Qed.

Lemma emits_doc (P : call -> Prop) c : P c -> emits P (doc c).
Proof. intros H. by constructor. Qed.

Lemma emits_when P c m : emits P m -> emits P (when c m).
Proof. destruct c; [done|]. intros _. apply emits_ret. Qed.

Lemma emits_for_ {A} P (l : list A) body :
  (forall x, emits P (body x)) -> emits P (for_ l body).
Proof.
  intros H. induction l as [|x l IH]; simpl; [apply emits_ret|].
  apply emits_bind; auto.
Qed.

Lemma emits_for_fold {A S} P (l : list A) (s : S) body :
  (forall s x, emits P (body s x)) -> emits P (for_fold l s body).
Proof.
  intros H. revert s. induction l as [|x l IH]; intros s; simpl;
    [apply emits_ret|].
  apply emits_bind; auto.
Qed.

Lemma emits_with_progress {A} (P : call -> Prop) title message steps
    (body : result A) :
  P (begin_progress title message steps) -> P end_progress ->
  emits P body -> emits P (with_progress title message steps body).
Proof.
  intros H1 H2 Hb. unfold with_progress. apply emits_bind.
  - by apply emits_doc.
  - intros _. destruct body; apply Forall_app; split; try done;
      by constructor.
Qed.

Lemma for_cons {A} (x : A) l body :
  for_ (x :: l) body = (body x ;; for_ l body).
Proof. reflexivity. Qed.

(** A loop whose every iteration returns, returns the calls of the
    iterations in order. *)
Lemma for_Forall2 {A} (l : list A) body outs :
  Forall2 (fun x o => body x = Ok tt o) l outs ->
  for_ l body = Ok tt (concat outs).
Proof.
  induction 1 as [|x o l outs Hx _ IH]; simpl; [done|].
  by apply (bind_Ok_Ok _ _ tt).
Qed.

Lemma for_map {A} (l : list A) body (g : A -> list call) :
  (forall x, x ∈ l -> body x = Ok tt (g x)) ->
  for_ l body = Ok tt (concat (map g l)).
Proof.
  intros H. apply for_Forall2. induction l as [|x l IH]; simpl;
    constructor.
  - apply H. left.
  - apply IH. intros y Hy. apply H. by right.
Qed.

Lemma calls_after {A} pre (m : result A) :
  calls (after pre m) = pre ++ calls m.
Proof. by destruct m. Qed.

Lemma bind_ext {A B} (m : result A) (f g : A -> result B) :
  (forall a, f a = g a) -> m ≫= f = m ≫= g.
Proof. intros H. destruct m as [a o|]; [|done]. by rewrite !bind_Ok, H. Qed.

Lemma for_ext {A} (l : list A) body1 body2 :
  (forall x, x ∈ l -> body1 x = body2 x) -> for_ l body1 = for_ l body2.
Proof.
  induction l as [|x l IH]; intros H; [done|].
  rewrite !for_cons, (H x) by left.
  apply bind_ext. intros _. apply IH. intros y Hy. apply H. by right.
Qed.

(** A loop that returned ran the body of each element, and the calls of
    that body are part of the calls of the loop. *)
Lemma for_inv {A} (l : list A) body out x :
  for_ l body = Ok tt out -> x ∈ l ->
  exists o pre post, body x = Ok tt o /\ out = pre ++ o ++ post.
Proof.
  revert out. induction l as [|y l IH]; intros out Hfor Hx.
  - by apply elem_of_nil in Hx.
  - rewrite for_cons in Hfor.
    apply bind_inv_Ok in Hfor as ([] & o1 & o2 & Hy & Hl & ->).
    apply elem_of_cons in Hx as [->|Hx].
    + exists o1, [], o2. by split.
    + destruct (IH _ Hl Hx) as (o & pre & post & Hb & ->).
      exists o, (o1 ++ pre), post. split; [done|]. by rewrite <- app_assoc.
Qed.

Lemma after_inv_Ok {A} pre (m : result A) a out :
  after pre m = Ok a out -> exists o, m = Ok a o /\ out = pre ++ o.
Proof. destruct m as [a' o|]; [|done]. intros [= -> <-]. eauto. Qed.

Lemma when_inv_Ok c m out :
  when c m = Ok tt out -> (c = true /\ m = Ok tt out) \/ (c = false /\ out = []).
Proof. destruct c; simpl; [auto|]. intros [= <-]. auto. Qed.

Lemma occurs_in_app_r part o1 o2 : occurs_in part o2 -> occurs_in part (o1 ++ o2).
Proof.
  intros (pre & post & ->). exists (o1 ++ pre), post.
  by rewrite <- app_assoc.
Qed.

Lemma occurs_in_app_l part o1 o2 : occurs_in part o1 -> occurs_in part (o1 ++ o2).
Proof.
  intros (pre & post & ->). exists pre, (post ++ o2).
  by rewrite <- !app_assoc.
Qed.

Lemma occurs_in_prefix part rest : occurs_in part (part ++ rest).
Proof. by exists [], rest. Qed.

Lemma emits_if {A} P (b : bool) (m1 m2 : result A) :
  emits P m1 -> emits P m2 -> emits P (if b then m1 else m2).
Proof. by destruct b. Qed.

Lemma emits_get_person P d h : emits P (get_person_from_handle d h).
Proof. unfold get_person_from_handle. destruct (_ !! _); constructor. Qed.

Lemma emits_get_family P d h : emits P (get_family_from_handle d h).
Proof. unfold get_family_from_handle. destruct (_ !! _); constructor. Qed.

Lemma emits_get_event P d h : emits P (get_event_from_handle d h).
Proof. unfold get_event_from_handle. destruct (_ !! _); constructor. Qed.

Lemma emits_get_note P d h : emits P (get_note_from_handle d h).
Proof. unfold get_note_from_handle. destruct (_ !! _); constructor. Qed.

(** One step in showing that a routine only makes calls of some kind:
    the routine is taken apart along its binds, loops and branches. *)
Ltac emits_step :=
  lazymatch goal with
  | |- emits _ (mret _) => apply emits_ret
  | |- emits _ (raise _) => apply emits_raise
  | |- emits _ (doc _) =>
      apply emits_doc;
      first [ reflexivity
            | match goal with
              | H : forall c : call, _ |- _ => apply H; reflexivity
              end ]
  | |- emits _ (when _ _) => apply emits_when
  | |- emits _ (for_ _ _) => apply emits_for_; intros
  | |- emits _ (for_fold _ _ _) => apply emits_for_fold; intros
  | |- emits _ (get_person_from_handle _ _) => apply emits_get_person
  | |- emits _ (get_family_from_handle _ _) => apply emits_get_family
  | |- emits _ (get_event_from_handle _ _) => apply emits_get_event
  | |- emits _ (get_note_from_handle _ _) => apply emits_get_note
  | |- emits _ (_ ≫= _) => apply emits_bind; [|intros]
  | |- emits _ (if _ then _ else _) => apply emits_if
  | |- emits _ (match ?x with _ => _ end) => destruct x
  end.

Ltac emits_auto := repeat first [emits_step | solve [auto]].

Lemma bind_ret_unit (m : result unit) : (m ;; mret tt) = m.
Proof.
  destruct m as [[] o|]; [|done]. rewrite bind_Ok. simpl.
  by rewrite app_nil_r.
Qed.

Lemma after_after {A} p q (m : result A) :
  after p (after q m) = after (p ++ q) m.
Proof. destruct m; simpl; by rewrite app_assoc. Qed.

Lemma emits_after {A} P pre (m : result A) :
  Forall P pre -> emits P m -> emits P (after pre m).
Proof. unfold emits. rewrite calls_after, Forall_app. auto. Qed.

(** ** The routines of the report *)

Section Proofs.

Variable gramps : Imports.
Variable self : FamilyGroup.

Local Notation "'_tr' s" := (sgettext self s) (at level 10, only parsing).

Lemma get_event_resolved h e :
  event_map (db self) !! h = Some e ->
  get_event_from_handle (db self) h = Ok e [].
Proof. unfold get_event_from_handle. by intros ->. Qed.

Lemma get_note_resolved h n :
  note_map (db self) !! h = Some n ->
  get_note_from_handle (db self) h = Ok n [].
Proof. unfold get_note_from_handle. by intros ->. Qed.

Lemma get_person_resolved h p :
  person_map (db self) !! h = Some p ->
  get_person_from_handle (db self) h = Ok p [].
Proof. unfold get_person_from_handle. by intros ->. Qed.

Lemma get_family_resolved h f :
  family_map (db self) !! h = Some f ->
  get_family_from_handle (db self) h = Ok f [].
Proof. unfold get_family_from_handle. by intros ->. Qed.

(** *** Rows that are always written *)

Lemma dump_parent_event_returns name event :
  dump_parent_event gramps self name event =
  Ok tt (parent_event_rows gramps self name event).
Proof.
  apply returns_unit. unfold dump_parent_event.
  destruct (match event with Some _ => _ | None => _ end)
    as [[date place] descr].
  by destruct (nonempty descr), (nonempty date), (nonempty place).
Qed.

Lemma dump_parent_event_None name :
  parent_event_rows gramps self name None = empty_event_row name.
Proof. reflexivity. Qed.

Lemma dump_parent_line_returns name text :
  dump_parent_line name text = Ok tt (calls (dump_parent_line name text)).
Proof. reflexivity. Qed.

Lemma dump_parent_noteline_returns name note :
  dump_parent_noteline name note =
  Ok tt (calls (dump_parent_noteline name note)).
Proof. reflexivity. Qed.

(** *** The marriage block *)

Lemma find_marriage_resolved refs evs :
  events_resolve self refs evs ->
  find_marriage self refs = Ok (first_family_marriage (zip refs evs)) [].
Proof.
  induction 1 as [|r e refs evs Hr _ IH]; simpl; [done|].
  rewrite (get_event_resolved _ _ Hr), bind_Ok.
  unfold first_family_marriage, is_family_marriage in *. simpl.
  destruct (_ && _); [done|]. by rewrite IH.
Qed.

Lemma other_events_loop refs evs :
  events_resolve self refs evs ->
  for_ refs (fun event_ref =>
    event ← get_event_from_handle (db self) (EventRef.ref event_ref);
    when (bool_decide (Event.get_type event ≠ EventType.MARRIAGE)) (
      dump_parent_event gramps self
        (_tr (_get_type self (Event.get_type event))) (Some event))) =
  Ok tt (concat (map (other_event_rows gramps self) (other_events evs))).
Proof.
  induction 1 as [|r e refs evs Hr _ IH]; [done|].
  rewrite for_cons, IH, (get_event_resolved _ _ Hr), bind_Ok.
  unfold other_events, is_marriage. simpl.
  destruct (decide (Event.get_type e = EventType.MARRIAGE)) as [Ht|Ht].
  - rewrite bool_decide_false by (by intros []).
    by rewrite (bool_decide_true _ Ht).
  - rewrite (bool_decide_true _ Ht), (bool_decide_false _ Ht). simpl.
    by rewrite dump_parent_event_returns.
Qed.

Lemma notes_loop hs notes name :
  notes_resolve self hs notes ->
  for_ hs (fun notehandle =>
    note ← get_note_from_handle (db self) notehandle;
    dump_parent_noteline name note) =
  Ok tt (concat (map (fun note => calls (dump_parent_noteline name note))
                   notes)).
Proof.
  induction 1 as [|h n hs notes Hh _ IH]; [done|].
  by rewrite for_cons, IH, (get_note_resolved _ _ Hh).
Qed.

Lemma marriage_block_wanted_eq family :
  bool_decide (Z.of_nat (length (Family.get_event_ref_list family)) > 0)
  || missingInfo self || includeAttrs self
  = marriage_block_wanted self family.
Proof.
  unfold marriage_block_wanted. do 2 f_equal.
  destruct (Family.get_event_ref_list family) as [|r l]; [done|].
  rewrite bool_decide_true by (rewrite length_cons; lia).
  by rewrite bool_decide_false.
Qed.

(** What [dump_marriage] writes for a family whose event and note
    handles resolve. *)
Lemma dump_marriage_resolved family evs notes :
  events_resolve self (Family.get_event_ref_list family) evs ->
  notes_resolve self (Family.get_note_list family) notes ->
  dump_marriage gramps self family =
  Ok tt
    (if marriage_block_wanted self family then
       marriage_header self family
       ++ parent_event_rows gramps self (_tr "Marriage")
            (first_family_marriage
               (zip (Family.get_event_ref_list family) evs))
       ++ concat (map (other_event_rows gramps self) (other_events evs))
       ++ marriage_footer self family notes
     else []).
Proof.
  intros Hev Hnotes. unfold dump_marriage.
  rewrite (find_marriage_resolved _ _ Hev), bind_Ok, after_nil.
  rewrite marriage_block_wanted_eq.
  destruct (marriage_block_wanted self family); [|done].
  rewrite when_true, !doc_bind.
  rewrite dump_parent_event_returns, bind_Ok.
  rewrite (other_events_loop _ _ Hev), bind_Ok.
  unfold marriage_footer.
  destruct (includeAttrs self), (incFamNotes self);
    rewrite ?when_true, ?when_false, ?ret_bind;
    rewrite ?(for_map _ _ (fun attr =>
                calls (dump_parent_line
                         (_tr (_get_type self (Attribute.get_type attr)))
                         (Attribute.get_value attr)))) by done;
    rewrite ?bind_Ok, ?(notes_loop _ _ _ Hnotes), ?bind_Ok;
    simpl; by rewrite ?app_nil_r, <- ?app_assoc.
Qed.

Lemma find_first {A} (f : A -> bool) (l : list A) x :
  List.find f l = Some x ->
  exists i, l !! i = Some x /\ f x = true /\
    forall j y, (j < i)%nat -> l !! j = Some y -> f y = false.
Proof.
  induction l as [|y l IH]; simpl; [done|].
  destruct (f y) eqn:Hy.
  - intros [= ->]. exists 0%nat. split; [done|]. split; [done|]. lia.
  - intros Hx. destruct (IH Hx) as (i & Hi & Hfx & Hlt).
    exists (S i). split; [done|]. split; [done|].
    intros [|j] z Hj; simpl; [by intros [= <-]|].
    apply Hlt. lia.
Qed.

Lemma find_none {A} (f : A -> bool) (l : list A) :
  List.find f l = None -> forall x, x ∈ l -> f x = false.
Proof.
  induction l as [|y l IH]; simpl; [by intros _ x Hx%elem_of_nil|].
  destruct (f y) eqn:Hy; [done|].
  intros Hn x [->|Hx]%elem_of_cons; auto.
Qed.

Lemma elem_of_other_events evs e :
  e ∈ other_events evs <->
  e ∈ evs /\ Event.get_type e ≠ EventType.MARRIAGE.
Proof.
  unfold other_events, is_marriage.
  rewrite !list_elem_of_In, filter_In, negb_true_iff.
  by rewrite bool_decide_eq_false.
Qed.

(** C1. The marriage block of a family shows, as the marriage, the
    first event of the family's event-reference list whose type is
    Marriage and whose reference has role FAMILY or PRIMARY; below it
    come, in list order, the events of another type, and no event of type
    Marriage is among them. *)
Theorem dump_marriage_first_family_marriage family evs notes :
  events_resolve self (Family.get_event_ref_list family) evs ->
  notes_resolve self (Family.get_note_list family) notes ->
  marriage_block_wanted self family = true ->
  dump_marriage gramps self family =
    Ok tt
      (marriage_header self family
       ++ parent_event_rows gramps self (_tr "Marriage")
            (first_family_marriage
               (zip (Family.get_event_ref_list family) evs))
       ++ concat (map (other_event_rows gramps self) (other_events evs))
       ++ marriage_footer self family notes)
  /\ (forall e,
        first_family_marriage (zip (Family.get_event_ref_list family) evs)
          = Some e ->
        exists i r,
          zip (Family.get_event_ref_list family) evs !! i = Some (r, e)
          /\ Event.get_type e = EventType.MARRIAGE
          /\ (EventRef.get_role r = EventRoleType.FAMILY
              \/ EventRef.get_role r = EventRoleType.PRIMARY)
          /\ forall j re, (j < i)%nat ->
               zip (Family.get_event_ref_list family) evs !! j = Some re ->
               is_family_marriage re = false)
  /\ (first_family_marriage (zip (Family.get_event_ref_list family) evs)
        = None ->
      forall re, re ∈ zip (Family.get_event_ref_list family) evs ->
        is_family_marriage re = false)
  /\ other_events evs `sublist_of` evs
  /\ (forall e, e ∈ other_events evs <->
        e ∈ evs /\ Event.get_type e ≠ EventType.MARRIAGE).
Proof.
  intros Hev Hnotes Hwanted.
  set (res := zip (Family.get_event_ref_list family) evs).
  split; [|split; [|split; [|split]]].
  - by rewrite (dump_marriage_resolved _ _ _ Hev Hnotes), Hwanted.
  - unfold first_family_marriage. intros e He.
    destruct (List.find is_family_marriage res) as [[r e']|] eqn:Hfind;
      [|done].
    injection He as ->.
    destruct (find_first _ _ _ Hfind) as (i & Hi & Hq & Hlt).
    exists i, r. split; [done|]. unfold is_family_marriage in Hq.
    apply andb_true_iff in Hq as [Ht Hr].
    apply bool_decide_eq_true in Ht. apply orb_true_iff in Hr.
    split; [done|]. split; [|done].
    destruct Hr as [Hr|Hr]; apply bool_decide_eq_true in Hr; auto.
  - unfold first_family_marriage. intros Hnone.
    apply find_none.
    by destruct (List.find is_family_marriage res).
  - unfold other_events. clear. induction evs as [|e l IH]; simpl; [done|].
    destruct (negb (is_marriage e)); by constructor.
  - apply elem_of_other_events.
Qed.

(** C7. The marriage block is written exactly when the family has an
    event reference, or missing information is shown, or attributes are
    included; and when it is written for a family with no marriage of its
    own, it still has its marriage row, with an empty date and an empty
    place and no description. *)
Theorem dump_marriage_written_iff family evs notes :
  events_resolve self (Family.get_event_ref_list family) evs ->
  notes_resolve self (Family.get_note_list family) notes ->
  (calls (dump_marriage gramps self family) ≠ [] <->
     Family.get_event_ref_list family ≠ []
     \/ missingInfo self = true \/ includeAttrs self = true)
  /\ (calls (dump_marriage gramps self family) ≠ [] ->
      first_family_marriage (zip (Family.get_event_ref_list family) evs)
        = None ->
      exists rest,
        dump_marriage gramps self family =
        Ok tt (marriage_header self family
               ++ empty_event_row (_tr "Marriage") ++ rest)).
Proof.
  intros Hev Hnotes.
  rewrite (dump_marriage_resolved _ _ _ Hev Hnotes).
  assert (marriage_block_wanted self family = true <->
          Family.get_event_ref_list family ≠ []
          \/ missingInfo self = true \/ includeAttrs self = true) as <-.
  { unfold marriage_block_wanted.
    rewrite !orb_true_iff, negb_true_iff, bool_decide_eq_false. tauto. }
  destruct (marriage_block_wanted self family); simpl.
  - split; [done|]. intros _ ->.
    rewrite dump_parent_event_None. eauto.
  - split; [by split|done].
Qed.

(** *** The parent blocks *)

(** C2. For a parent whose handle is absent, [dump_parent] writes
    nothing at all when missing information is not shown, and writes the
    placeholder block, headed by the display name of the empty person,
    when it is. *)
Theorem dump_parent_absent title person_handle :
  truthy person_handle = false ->
  (missingInfo self = false ->
     dump_parent gramps self title person_handle = Ok tt [])
  /\ (missingInfo self = true ->
        dump_parent gramps self title person_handle =
        Ok tt (placeholder_block gramps self title)).
Proof.
  intros Hh. unfold dump_parent, present. rewrite Hh.
  split; intros Hmi; rewrite Hmi; [done|].
  unfold dump_parent_parents, present. rewrite Hmi. simpl.
  by destruct (gramps_ids self), (incParEvents self), (incParAddr self),
    (incParNotes self), (includeAttrs self), (incParNames self).
Qed.

(** *** The section of a family *)

Lemma dump_family_body_title rec family_handle generation :
  exists rest,
    calls (dump_family_body gramps self rec family_handle generation) =
    title_paragraph (family_title self generation) ++ rest.
Proof.
  unfold dump_family_body. rewrite !doc_bind, !calls_after. eauto.
Qed.

Lemma dump_family_title depth family_handle generation :
  exists rest,
    calls (dump_family gramps self (S depth) family_handle generation) =
    title_paragraph (family_title self generation) ++ rest.
Proof. apply dump_family_body_title. Qed.

(** The body of [dump_family] calls itself only for a family other than
    its own, and one generation further. *)
Lemma dump_family_body_ext rec1 rec2 family_handle generation :
  (forall h, h ≠ family_handle ->
     rec1 h (generation + 1) = rec2 h (generation + 1)) ->
  dump_family_body gramps self rec1 family_handle generation =
  dump_family_body gramps self rec2 family_handle generation.
Proof.
  intros Hrec. unfold dump_family_body.
  do 3 (apply bind_ext; intros _).
  apply bind_ext; intros family.
  do 6 (apply bind_ext; intros _).
  destruct (recursive self); [|done]. rewrite !when_true.
  apply for_ext; intros child_ref _.
  apply bind_ext; intros child.
  apply for_ext; intros h _.
  case_bool_decide; [|done]. rewrite !when_true.
  apply bind_ext; intros _. by apply Hrec.
Qed.

(** With recursion on, a section that was written contains, after a
    page break, the section of each family a child is a parent in, the
    family itself excepted. *)
Lemma dump_family_descends depth family_handle generation family
    child_ref child child_family_handle out :
  recursive self = true ->
  family_map (db self) !! family_handle = Some family ->
  child_ref ∈ Family.get_child_ref_list family ->
  person_map (db self) !! ChildRef.ref child_ref = Some child ->
  child_family_handle ∈ Person.get_family_handle_list child ->
  child_family_handle ≠ family_handle ->
  dump_family gramps self (S depth) family_handle generation = Ok tt out ->
  exists o,
    dump_family gramps self depth child_family_handle (generation + 1)
      = Ok tt o
    /\ occurs_in (page_break :: o) out.
Proof.
  intros Hrec Hfam Hchild Hperson Hcf Hne Hout.
  simpl in Hout. unfold dump_family_body in Hout.
  rewrite Hrec, (get_family_resolved _ _ Hfam) in Hout.
  do 3 (apply bind_inv_Ok in Hout as ([] & ? & ? & _ & Hout & ->)).
  rewrite bind_Ok, after_nil in Hout.
  do 6 (apply bind_inv_Ok in Hout as ([] & ? & ? & _ & Hout & ->)).
  rewrite when_true in Hout.
  destruct (for_inv _ _ _ _ Hout Hchild) as (o1 & pre1 & post1 & Hc & ->).
  rewrite (get_person_resolved _ _ Hperson), bind_Ok, after_nil in Hc.
  destruct (for_inv _ _ _ _ Hc Hcf) as (o2 & pre2 & post2 & Hcall & ->).
  rewrite bool_decide_true, when_true in Hcall by done.
  apply bind_inv_Ok in Hcall as ([] & ? & o & [= <-] & Hcall & ->).
  exists o. split; [done|].
  do 9 apply occurs_in_app_r.
  apply occurs_in_app_r, occurs_in_app_l, occurs_in_app_r, occurs_in_app_l.
  exists [], []. simpl. by rewrite app_nil_r.
Qed.

Lemma append_empty_r (s : string) : s +:+ "" = s.
Proof.
  induction s as [|c s IH]; [done|].
  change (String c s +:+ "") with (String c (s +:+ "")). by rewrite IH.
Qed.

Lemma generation_title_english v :
  percent "Family Group Report - Generation %d" v =
  "Family Group Report - Generation " +:+ v.
Proof.
  change (percent "Family Group Report - Generation %d" v)
    with ("Family Group Report - Generation " +:+ (v +:+ "")).
  by rewrite append_empty_r.
Qed.

Lemma family_title_english generation :
  sgettext self "Family Group Report - Generation %d"
    = "Family Group Report - Generation %d" ->
  sgettext self "Family Group Report" = "Family Group Report" ->
  family_title self generation =
  if recursive self && generations self
  then "Family Group Report - Generation " +:+ pretty generation
  else "Family Group Report".
Proof.
  unfold family_title. intros -> ->. by rewrite generation_title_english.
Qed.

(** C3. In the English locale, with recursion and generation numbering
    both on, the section of a family at generation N is titled "Family
    Group Report - Generation N", and with either off it is titled "Family
    Group Report"; the routine calls itself only for a family other than
    the one it is writing, one generation further; and so a section written
    with both options on contains, after a page break, the section titled
    with the next generation for each other family a child is a parent in
    (generation 2 below the starting family). *)
Theorem dump_family_generation_titles depth family_handle generation :
  sgettext self "Family Group Report - Generation %d"
    = "Family Group Report - Generation %d" ->
  sgettext self "Family Group Report" = "Family Group Report" ->
  (recursive self && generations self = true ->
     exists rest,
       calls (dump_family gramps self (S depth) family_handle generation) =
       title_paragraph
         ("Family Group Report - Generation " +:+ pretty generation) ++ rest)
  /\ (recursive self && generations self = false ->
        exists rest,
          calls (dump_family gramps self (S depth) family_handle generation)
          = title_paragraph "Family Group Report" ++ rest)
  /\ (forall rec1 rec2,
        (forall h, h ≠ family_handle ->
           rec1 h (generation + 1) = rec2 h (generation + 1)) ->
        dump_family_body gramps self rec1 family_handle generation =
        dump_family_body gramps self rec2 family_handle generation)
  /\ (forall family child_ref child child_family_handle out,
        recursive self = true ->
        generations self = true ->
        family_map (db self) !! family_handle = Some family ->
        child_ref ∈ Family.get_child_ref_list family ->
        person_map (db self) !! ChildRef.ref child_ref = Some child ->
        child_family_handle ∈ Person.get_family_handle_list child ->
        child_family_handle ≠ family_handle ->
        dump_family gramps self (S (S depth)) family_handle generation
          = Ok tt out ->
        occurs_in
          (page_break
           :: title_paragraph
                ("Family Group Report - Generation "
                 +:+ pretty (generation + 1)))
          out).
Proof.
  intros Hgen Hplain.
  pose proof (fun g => family_title_english g Hgen Hplain) as Htitle.
  split; [|split; [|split]].
  - intros Hboth.
    destruct (dump_family_title depth family_handle generation) as [rest ->].
    rewrite Htitle, Hboth. eauto.
  - intros Hplain'.
    destruct (dump_family_title depth family_handle generation) as [rest ->].
    rewrite Htitle, Hplain'. eauto.
  - intros rec1 rec2. apply dump_family_body_ext.
  - intros family child_ref child child_family_handle out
      Hrec Hgens Hfam Hchild Hperson Hcf Hne Hout.
    destruct (dump_family_descends _ _ _ _ _ _ _ _
                Hrec Hfam Hchild Hperson Hcf Hne Hout)
      as (o & Ho & pre & post & ->).
    destruct (dump_family_title depth child_family_handle (generation + 1))
      as [rest Hrest].
    rewrite Ho, Htitle, Hrec, Hgens in Hrest. simpl in Hrest. subst o.
    exists pre, (rest ++ post). simpl. by rewrite <- ?app_assoc.
Qed.

(** *** The kinds of call each routine makes *)

Section Kinds.

Variable P : call -> Prop.

(** The parent and marriage blocks make neither a call on the meter
    nor one that belongs to the children table. *)
Section Blocks.

Hypothesis plain :
  forall c, on_meter c = false -> in_children_table c = false -> P c.

Lemma dump_parent_event_emits name event :
  emits P (dump_parent_event gramps self name event).
Proof. unfold dump_parent_event. emits_auto. Qed.

Lemma dump_parent_line_emits name text :
  emits P (dump_parent_line name text).
Proof. unfold dump_parent_line. emits_auto. Qed.

Lemma dump_parent_noteline_emits name note :
  emits P (dump_parent_noteline name note).
Proof. unfold dump_parent_noteline. emits_auto. Qed.

Lemma dump_parent_parent_row_emits label name mark :
  emits P (dump_parent_parent_row label name mark).
Proof. unfold dump_parent_parent_row. emits_auto. Qed.

Lemma ref_date_emits r : emits P (ref_date self r).
Proof. unfold ref_date. emits_auto. Qed.

Lemma ref_event_emits r : emits P (ref_event self r).
Proof. unfold ref_event. emits_auto. Qed.

Lemma parent_name_emits h : emits P (parent_name self h).
Proof. pose proof ref_date_emits. unfold parent_name. emits_auto. Qed.

Lemma dump_parent_parents_emits person :
  emits P (dump_parent_parents gramps self person).
Proof.
  pose proof parent_name_emits. pose proof dump_parent_line_emits.
  pose proof dump_parent_parent_row_emits.
  unfold dump_parent_parents. emits_auto.
Qed.

Lemma dump_parent_emits title person_handle :
  emits P (dump_parent gramps self title person_handle).
Proof.
  pose proof dump_parent_event_emits. pose proof dump_parent_line_emits.
  pose proof dump_parent_noteline_emits. pose proof ref_event_emits.
  pose proof dump_parent_parents_emits.
  unfold dump_parent. emits_auto.
Qed.

Lemma find_marriage_emits refs : emits P (find_marriage self refs).
Proof. induction refs; simpl; emits_auto. Qed.

Lemma dump_marriage_emits family :
  emits P (dump_marriage gramps self family).
Proof.
  pose proof dump_parent_event_emits. pose proof dump_parent_line_emits.
  pose proof dump_parent_noteline_emits. pose proof find_marriage_emits.
  unfold dump_marriage. emits_auto.
Qed.

End Blocks.

(** Writing the section of a family makes no call on the meter. *)
Section Sections.

Hypothesis on_doc : forall c, on_meter c = false -> P c.

Local Lemma plain c :
  on_meter c = false -> in_children_table c = false -> P c.
Proof. auto. Qed.

Lemma dump_child_event_emits text name event :
  emits P (dump_child_event gramps self text name event).
Proof. unfold dump_child_event. emits_auto. Qed.

Lemma find_child_marriage_emits refs :
  emits P (find_child_marriage self refs).
Proof. induction refs; simpl; emits_auto. Qed.

Lemma dump_child_spouse_emits family mrg index families spouse_id :
  emits P (dump_child_spouse gramps self family mrg index families
             spouse_id).
Proof.
  pose proof ref_date_emits.
  unfold dump_child_spouse. emits_auto.
Qed.

Lemma dump_child_family_emits person_handle families index
    family_handle :
  emits P (dump_child_family gramps self person_handle families index
             family_handle).
Proof.
  pose proof dump_child_spouse_emits. pose proof dump_child_event_emits.
  pose proof find_child_marriage_emits.
  unfold dump_child_family. emits_auto.
Qed.

Lemma dump_child_emits index person_handle :
  emits P (dump_child gramps self index person_handle).
Proof.
  pose proof dump_child_family_emits. pose proof dump_child_event_emits.
  pose proof ref_event_emits.
  unfold dump_child. emits_auto.
Qed.

Lemma dump_children_emits index child_ref_list :
  emits P (dump_children gramps self index child_ref_list).
Proof.
  pose proof dump_child_emits. unfold dump_children. emits_auto.
Qed.

Lemma dump_family_body_emits rec family_handle generation :
  (forall h g, emits P (rec h g)) ->
  emits P (dump_family_body gramps self rec family_handle generation).
Proof.
  intros Hrec.
  pose proof (dump_parent_emits plain).
  pose proof (dump_marriage_emits plain).
  pose proof dump_children_emits.
  unfold dump_family_body. emits_auto.
Qed.

Lemma dump_family_emits depth family_handle generation :
  emits P (dump_family gramps self depth family_handle generation).
Proof.
  revert family_handle generation.
  induction depth as [|depth IH]; intros family_handle generation.
  - apply emits_raise.
  - by apply dump_family_body_emits.
Qed.

End Sections.

End Kinds.

(** *** The driver *)

Lemma ticks_app o1 o2 : ticks (o1 ++ o2) = (ticks o1 + ticks o2)%nat.
Proof. unfold ticks. by rewrite List.filter_app, length_app. Qed.

Lemma ticks_on_doc out :
  Forall (fun c => on_meter c = false) out -> ticks out = 0%nat.
Proof.
  unfold ticks. induction 1 as [|c out Hc _ IH]; [done|].
  simpl. by destruct c.
Qed.

Lemma filtered_families_no_filter :
  filter self = None ->
  filtered_families gramps self = Ok (get_family_handles (db self)) [].
Proof. unfold filtered_families. by intros ->. Qed.

Lemma write_families_returns depth fam_list outs :
  Forall2 (fun h o => dump_family gramps self depth h 1 = Ok tt o)
    fam_list outs ->
  write_families gramps self depth fam_list =
  Ok tt (concat (map family_page outs)).
Proof.
  intros Hall. apply for_Forall2, Forall2_fmap_r.
  eapply Forall2_impl; [exact Hall|]. intros h o Ho. simpl.
  by rewrite Ho.
Qed.

(** C4. The driver writes, for each family of the filtered list and in
    the order of the list, the section of the family at generation 1, then
    a page break, then ticks the meter once, and that is the only tick for
    this family; when the list is empty it writes one page with the title
    alone. *)
Theorem write_report_pages depth fam_list pre outs :
  filtered_families gramps self = Ok fam_list pre ->
  Forall2 (fun h o => dump_family gramps self depth h 1 = Ok tt o)
    fam_list outs ->
  write_report gramps self depth =
    Ok tt
      (pre ++
       match fam_list with
       | [] => title_only_page self
       | _ :: _ =>
           [begin_progress (glocale_sgettext gramps "Family Group Report")
              (glocale_sgettext gramps "Writing families")
              (Z.of_nat (length fam_list))]
           ++ concat (map family_page outs)
           ++ [end_progress]
       end)
  /\ ticks (concat (map family_page outs)) = length fam_list
  /\ length outs = length fam_list.
Proof.
  intros Hfiltered Hall. split; [|split].
  - unfold write_report. rewrite Hfiltered, bind_Ok.
    destruct fam_list as [|h fam_list]; [done|].
    rewrite bool_decide_true by done.
    unfold with_progress.
    by rewrite (write_families_returns _ _ _ Hall), doc_bind.
  - clear Hfiltered.
    induction Hall as [|h o fam_list outs Ho _ IH]; [done|].
    simpl. unfold family_page at 1. rewrite !ticks_app, IH.
    rewrite (ticks_on_doc o); [done|].
    pose proof (dump_family_emits (fun c => on_meter c = false)
                  (fun c H => H) depth h 1) as Hdoc.
    by rewrite Ho in Hdoc.
  - symmetry. by eapply Forall2_length.
Qed.

(** *** A family without children *)

(** C5. For a family whose child-reference list is empty, the section
    ends with the block of the wife: no blank paragraph, no table, no
    header row and no child row follow it, and no call in the section
    carries a style of the children table. *)
Theorem dump_family_no_children depth family_handle generation family :
  family_map (db self) !! family_handle = Some family ->
  Family.get_child_ref_list family = [] ->
  dump_family gramps self (S depth) family_handle generation =
    parents_section gramps self family generation
  /\ Forall (fun c => in_children_table c = false)
       (calls (dump_family gramps self (S depth) family_handle generation)).
Proof.
  intros Hfam Hnone.
  assert (dump_family gramps self (S depth) family_handle generation =
          parents_section gramps self family generation) as ->.
  { simpl. unfold dump_family_body.
    rewrite !doc_bind, (get_family_resolved _ _ Hfam), bind_Ok, after_nil.
    rewrite Hnone, !after_after. unfold parents_section.
    apply (f_equal (after (title_paragraph (family_title self generation)))).
    do 4 (apply bind_ext; intros _).
    rewrite <- (bind_ret_unit (dump_parent _ _ _ _)) at 2.
    apply bind_ext; intros _.
    rewrite when_false, ret_bind. by destruct (recursive self). }
  split; [done|].
  pose proof (dump_parent_emits (fun c => in_children_table c = false)
                (fun c _ H => H)).
  pose proof (dump_marriage_emits (fun c => in_children_table c = false)
                (fun c _ H => H)).
  unfold parents_section. apply emits_after; [by repeat constructor|].
  emits_auto.
Qed.

(** *** The children table *)

Lemma ref_event_silent r : calls (ref_event self r) = [].
Proof.
  destruct r as [r|]; [|done]. unfold ref_event, get_event_from_handle.
  by destruct (_ !! _).
Qed.

Lemma spouse_count_silent person_handle l n :
  calls (for_fold l n (fun spouse_count family_handle =>
           family ← get_family_from_handle (db self) family_handle;
           if truthy (spouse_of person_handle family)
           then mret (spouse_count + 1)
           else mret spouse_count)) = [].
Proof.
  revert n. induction l as [|h l IH]; intros n; [done|].
  simpl for_fold. rewrite calls_bind.
  unfold get_family_from_handle. destruct (_ !! _) as [family|]; [|done].
  rewrite ret_bind. destruct (truthy _); simpl; apply IH.
Qed.

Lemma silent_Ok {A} (m : result A) a out :
  calls m = [] -> m = Ok a out -> out = [].
Proof. by intros Hs ->. Qed.

(** The rows of a child start with the cell of its index. *)
Lemma dump_child_label index person_handle person out :
  person_map (db self) !! person_handle = Some person ->
  dump_child gramps self index person_handle = Ok tt out ->
  exists style rest,
    out = [ start_row; start_cell style 1; start_paragraph "FGR-ChildText";
            write_text (child_label self index person) None ] ++ rest.
Proof.
  intros Hperson. unfold dump_child.
  rewrite (get_person_resolved _ _ Hperson), bind_Ok, after_nil.
  intros Hout.
  apply bind_inv_Ok in Hout as (birth & o1 & ? & Hbirth & Hout & ->).
  apply (silent_Ok _ _ _ (ref_event_silent _)) in Hbirth as ->.
  apply bind_inv_Ok in Hout as (death & o2 & ? & Hdeath & Hout & ->).
  apply (silent_Ok _ _ _ (ref_event_silent _)) in Hdeath as ->.
  apply bind_inv_Ok in Hout as (spouse_count & o3 & ? & Hcount & Hout & ->).
  assert (o3 = []) as ->.
  { destruct (incChiMar self); [|by injection Hcount].
    eapply silent_Ok; [apply spouse_count_silent | exact Hcount]. }
  rewrite doc_bind in Hout.
  apply after_inv_Ok in Hout as (? & Hout & ->).
  apply bind_inv_Ok in Hout as ([] & o4 & ? & Hcell & Hout & ->).
  rewrite !doc_bind in Hout.
  do 2 apply after_inv_Ok in Hout as (? & Hout & ->).
  destruct (_ || _); injection Hcell as <-; simpl; eauto.
Qed.

Lemma child_label_english index person :
  sgettext self "acronym for male|M" = "M" ->
  sgettext self "acronym for female|F" = "F" ->
  sgettext self "acronym for unknown|%dU" = "%dU" ->
  child_label self index person =
  pretty index +:+ sex_code (Person.get_gender person).
Proof.
  unfold child_label. intros -> -> ->.
  by destruct (Person.get_gender person).
Qed.

Lemma dump_children_cons index child_ref child_ref_list :
  dump_children gramps self index (child_ref :: child_ref_list) =
  (dump_child gramps self index (ChildRef.ref child_ref) ;;
   dump_children gramps self (index + 1) child_ref_list).
Proof.
  unfold dump_children. simpl for_fold. rewrite bind_assoc.
  apply bind_ext; intros _. by rewrite ret_bind.
Qed.

(** A loop over the children that returned called [dump_child] on each
    of them in turn, with an index that starts at [index] and grows by
    one. *)
Lemma dump_children_inv child_ref_list index n out :
  dump_children gramps self index child_ref_list = Ok n out ->
  exists groups,
    out = concat groups
    /\ length groups = length child_ref_list
    /\ forall i child_ref group,
         child_ref_list !! i = Some child_ref ->
         groups !! i = Some group ->
         dump_child gramps self (index + Z.of_nat i) (ChildRef.ref child_ref)
           = Ok tt group.
Proof.
  revert index out.
  induction child_ref_list as [|c l IH]; intros index out Hout.
  - injection Hout as <- <-. exists []. by split.
  - rewrite dump_children_cons in Hout.
    apply bind_inv_Ok in Hout as ([] & o1 & o2 & Hc & Hl & ->).
    destruct (IH _ _ Hl) as (groups & -> & Hlen & Hall).
    exists (o1 :: groups). split; [done|]. split; [by rewrite !length_cons, Hlen|].
    intros [|i] c' o' Hc' Ho'.
    + injection Hc' as <-. injection Ho' as <-. by rewrite Z.add_0_r.
    + replace (index + Z.of_nat (S i)) with (index + 1 + Z.of_nat i) by lia.
      by apply Hall.
Qed.

(** A child whose group was written is in the database. *)
Lemma dump_child_person index person_handle out :
  dump_child gramps self index person_handle = Ok tt out ->
  exists person, person_map (db self) !! person_handle = Some person.
Proof.
  unfold dump_child, get_person_from_handle.
  destruct (_ !! _) as [person|]; [eauto|].
  unfold raise. by rewrite bind_Raise.
Qed.

(** A section that was written for a family with children: the parents,
    then the children table, then the sections of the descendants. *)
Lemma dump_family_body_children rec family_handle generation family out :
  family_map (db self) !! family_handle = Some family ->
  Family.get_child_ref_list family ≠ [] ->
  dump_family_body gramps self rec family_handle generation = Ok tt out ->
  exists parents n children rest,
    parents_section gramps self family generation = Ok tt parents
    /\ dump_children gramps self 1 (Family.get_child_ref_list family)
         = Ok n children
    /\ out = parents ++ children_header self ++ children ++ [end_table]
               ++ rest
    /\ (recursive self = false -> rest = []).
Proof.
  intros Hfam Hsome. unfold dump_family_body.
  rewrite !doc_bind, (get_family_resolved _ _ Hfam), bind_Ok, after_nil.
  rewrite !after_after. intros Hout.
  apply after_inv_Ok in Hout as (? & Hout & ->).
  apply bind_inv_Ok in Hout as ([] & husband & ? & Hhusband & Hout & ->).
  rewrite !doc_bind, !after_after in Hout.
  apply after_inv_Ok in Hout as (? & Hout & ->).
  apply bind_inv_Ok in Hout as ([] & marriage & ? & Hmarriage & Hout & ->).
  apply bind_inv_Ok in Hout as ([] & wife & ? & Hwife & Hout & ->).
  apply bind_inv_Ok in Hout as ([] & table & rest & Htable & Hrest & ->).
  rewrite bool_decide_true, when_true in Htable
    by (destruct (Family.get_child_ref_list family);
        [done | rewrite length_cons; lia]).
  apply after_inv_Ok in Htable as (? & Htable & ->).
  apply bind_inv_Ok in Htable as (n & children & ? & Hchildren & Hend & ->).
  injection Hend as <-.
  exists (title_paragraph (family_title self generation) ++ husband
          ++ [start_paragraph "FGR-blank"; end_paragraph] ++ marriage
          ++ wife), n, children, rest.
  split; [|split; [done|split]].
  - unfold parents_section.
    rewrite Hhusband, bind_Ok, !doc_bind, !after_after, Hmarriage, bind_Ok.
    rewrite Hwife, !after_Ok. f_equal. simpl. by rewrite <- !app_assoc.
  - simpl. repeat (rewrite <- app_assoc; simpl). done.
  - intros Hrec. rewrite Hrec, when_false in Hrest. by injection Hrest.
Qed.

(** C6. For a family with children whose section was written, the
    children table follows the blocks of the parents, and it holds one
    group of rows per child, in the order of the child-reference list.
    The group of the child at position i (counting from 0) is what
    [dump_child] writes for it with index i + 1, and it starts with the
    index cell: the index followed, in the English locale, by M for a
    male, F for a female and U for a person of unknown gender. *)
Theorem dump_family_children_labels depth family_handle generation family
    out :
  sgettext self "acronym for male|M" = "M" ->
  sgettext self "acronym for female|F" = "F" ->
  sgettext self "acronym for unknown|%dU" = "%dU" ->
  family_map (db self) !! family_handle = Some family ->
  Family.get_child_ref_list family ≠ [] ->
  dump_family gramps self (S depth) family_handle generation = Ok tt out ->
  exists parents groups rest,
    parents_section gramps self family generation = Ok tt parents
    /\ out = parents ++ children_header self ++ concat groups
               ++ [end_table] ++ rest
    /\ (recursive self = false -> rest = [])
    /\ length groups = length (Family.get_child_ref_list family)
    /\ forall i child_ref group,
         Family.get_child_ref_list family !! i = Some child_ref ->
         groups !! i = Some group ->
         dump_child gramps self (1 + Z.of_nat i) (ChildRef.ref child_ref)
           = Ok tt group
         /\ exists person style cells,
              person_map (db self) !! ChildRef.ref child_ref = Some person
              /\ group =
                 [ start_row; start_cell style 1;
                   start_paragraph "FGR-ChildText";
                   write_text (pretty (1 + Z.of_nat i)
                               +:+ sex_code (Person.get_gender person))
                     None ]
                 ++ cells.
Proof.
  intros Hm Hf Hu Hfam Hsome Hout. simpl in Hout.
  destruct (dump_family_body_children _ _ _ _ _ Hfam Hsome Hout)
    as (parents & n & children & rest & Hparents & Hchildren & -> & Hrest).
  destruct (dump_children_inv _ _ _ _ Hchildren)
    as (groups & -> & Hlen & Hall).
  exists parents, groups, rest.
  split; [done|]. split; [done|]. split; [done|]. split; [done|].
  intros i child_ref group Hi Hgroup.
  pose proof (Hall i child_ref group Hi Hgroup) as Hchild.
  split; [done|].
  destruct (dump_child_person _ _ _ Hchild) as (person & Hperson).
  destruct (dump_child_label _ _ _ _ Hperson Hchild)
    as (style & cells & ->).
  exists person, style, cells. split; [done|].
  by rewrite (child_label_english _ _ Hm Hf Hu).
Qed.

(** *** The families of a child *)

Lemma find_child_marriage_resolved refs evs :
  events_resolve self refs evs ->
  find_child_marriage self refs = Ok (first_marriage evs) [].
Proof.
  induction 1 as [|r e refs evs Hr _ IH]; simpl; [done|].
  rewrite (get_event_resolved _ _ Hr), bind_Ok.
  unfold first_marriage, is_marriage in *. simpl.
  destruct (bool_decide _); [done|]. by rewrite IH.
Qed.

Lemma dump_child_event_returns style name event :
  dump_child_event gramps self style name event =
  Ok tt (child_event_rows gramps self style name event).
Proof.
  apply returns_unit. unfold dump_child_event.
  by destruct (match event with Some _ => _ | None => _ end).
Qed.


(** What the loop over the families of a child writes for one family
    whose events resolve: the row of the spouse when the other parent is
    recorded, then the row of the marriage when the family has an event of
    type Marriage. *)
Lemma dump_child_family_resolved person_handle families index family_handle
    family evs :
  family_map (db self) !! family_handle = Some family ->
  events_resolve self (Family.get_event_ref_list family) evs ->
  dump_child_family gramps self person_handle families index family_handle =
  (match present (spouse_of person_handle family) with
   | Some spouse_id =>
       dump_child_spouse gramps self family (first_marriage evs) (index + 1)
         families spouse_id
   | None => mret tt
   end ;;
   Ok (index + 1)
     (child_marriage_rows gramps self (index + 1) families
        (first_marriage evs))).
Proof.
  intros Hfam Hev. unfold dump_child_family.
  rewrite (get_family_resolved _ _ Hfam), bind_Ok, after_nil.
  rewrite (find_child_marriage_resolved _ _ Hev), bind_Ok, after_nil.
  apply bind_ext; intros _.
  destruct (first_marriage evs) as [e|]; [|done].
  rewrite when_true. simpl child_marriage_rows.
  by destruct (bool_decide (index + 1 = families));
    rewrite dump_child_event_returns.
Qed.

(** The loop body counts the family it was called for. *)
Lemma dump_child_family_index person_handle families index family_handle
    idx out :
  dump_child_family gramps self person_handle families index family_handle
    = Ok idx out ->
  idx = index + 1.
Proof.
  unfold dump_child_family. intros Hout.
  apply bind_inv_Ok in Hout as (family & ? & ? & _ & Hout & _).
  apply bind_inv_Ok in Hout as (mrg & ? & ? & _ & Hout & _).
  apply bind_inv_Ok in Hout as ([] & ? & ? & _ & Hout & _).
  apply bind_inv_Ok in Hout as ([] & ? & ? & _ & Hout & _).
  by injection Hout.
Qed.

(** A loop over the families of a child that returned ran the loop body
    on each family in turn, counting from [index]. *)
Lemma dump_child_families_inv person_handle families family_handles index
    n out :
  for_fold family_handles index
    (dump_child_family gramps self person_handle families) = Ok n out ->
  exists groups,
    out = concat groups
    /\ length groups = length family_handles
    /\ forall i family_handle group,
         family_handles !! i = Some family_handle ->
         groups !! i = Some group ->
         dump_child_family gramps self person_handle families
           (index + Z.of_nat i) family_handle
           = Ok (index + Z.of_nat i + 1) group.
Proof.
  revert index out.
  induction family_handles as [|h l IH]; intros index out Hout.
  - injection Hout as <- <-. exists []. by split.
  - simpl for_fold in Hout.
    apply bind_inv_Ok in Hout as (idx & o1 & o2 & Hh & Hl & ->).
    pose proof (dump_child_family_index _ _ _ _ _ _ Hh) as ->.
    destruct (IH _ _ Hl) as (groups & -> & Hlen & Hall).
    exists (o1 :: groups). split; [done|].
    split; [by rewrite !length_cons, Hlen|].
    intros [|i] h' g Hh' Hg.
    + injection Hh' as <-. injection Hg as <-. by rewrite Z.add_0_r.
    + replace (index + Z.of_nat (S i)) with (index + 1 + Z.of_nat i) by lia.
      by apply Hall.
Qed.

(** With the marriages of the children included, the group of a child
    ends with what the loop body wrote for each of its families, in the
    order of its family list. *)
Lemma dump_child_families index person_handle person out :
  person_map (db self) !! person_handle = Some person ->
  incChiMar self = true ->
  dump_child gramps self index person_handle = Ok tt out ->
  exists head groups,
    out = head ++ concat groups
    /\ length groups = length (Person.get_family_handle_list person)
    /\ forall i family_handle group,
         Person.get_family_handle_list person !! i = Some family_handle ->
         groups !! i = Some group ->
         dump_child_family gramps self person_handle
           (Z.of_nat (length (Person.get_family_handle_list person)))
           (Z.of_nat i) family_handle
           = Ok (Z.of_nat i + 1) group.
Proof.
  intros Hperson Hinc. unfold dump_child.
  rewrite (get_person_resolved _ _ Hperson), bind_Ok, after_nil.
  intros Hout.
  apply bind_inv_Ok in Hout as (birth & o1 & ? & _ & Hout & ->).
  apply bind_inv_Ok in Hout as (death & o2 & ? & _ & Hout & ->).
  apply bind_inv_Ok in Hout as (spouse_count & o3 & ? & _ & Hout & ->).
  repeat first
    [ rewrite doc_bind in Hout; apply after_inv_Ok in Hout as (? & Hout & ->)
    | apply bind_inv_Ok in Hout as ([] & ? & ? & _ & Hout & ->) ].
  rewrite Hinc, when_true in Hout.
  apply bind_inv_Ok in Hout as (n & loop & ? & Hloop & Hret & ->).
  injection Hret as <-.
  destruct (dump_child_families_inv _ _ _ _ _ _ Hloop)
    as (groups & -> & Hlen & Hall).
  eexists _, groups. split; [|split; [done|exact Hall]].
  rewrite app_nil_r, !app_assoc. reflexivity.
Qed.

(** *** The border of the group of a child *)

(** When the marriages of the children are left out, the last row of a
    child's group has the closing border and the rows before it the open
    one. *)
Lemma dump_child_closed_without_marriages index person_handle person
    birth death :
  person_map (db self) !! person_handle = Some person ->
  ref_event self (Person.get_birth_ref person) = Ok birth [] ->
  ref_event self (Person.get_death_ref person) = Ok death [] ->
  incChiMar self = false ->
  exists out,
    dump_child gramps self index person_handle = Ok tt out
    /\ closed_by_last (leading_styles out) = true.
Proof.
  intros Hperson Hbirth Hdeath Hinc. unfold dump_child.
  rewrite (get_person_resolved _ _ Hperson), bind_Ok, after_nil.
  rewrite Hbirth, bind_Ok, after_nil, Hdeath, bind_Ok, after_nil.
  rewrite Hinc, ret_bind. unfold dump_child_event.
  destruct (missingInfo self), birth as [b|], death as [d|],
    (gramps_ids self); simpl; eexists; (split; [reflexivity|reflexivity]).
Qed.

End Proofs.

(** ** The marriage shown for a child and the rows of its families *)

(** C9. For a family of a child whose events resolve, the marriage row
    that the loop over the child's families writes shows the first event
    of the family's event-reference list whose type is Marriage, whatever
    the role of the reference, while the marriage block of the parents
    shows the first one whose reference also has role FAMILY or PRIMARY.
    With the marriages of the children included, the group of a child ends
    with what that loop writes for each of its families.  And there is a
    child whose marriage row shows a marriage referenced with role WITNESS,
    which the marriage block of the same family passes over. *)
Theorem child_marriage_row_any_role :
  (forall gramps self person_handle families index family_handle family evs,
     family_map (db self) !! family_handle = Some family ->
     events_resolve self (Family.get_event_ref_list family) evs ->
     (forall idx out,
        dump_child_family gramps self person_handle families index
          family_handle = Ok idx out ->
        exists spouse_row,
          out = spouse_row
                ++ child_marriage_rows gramps self (index + 1) families
                     (first_marriage evs))
     /\ (forall notes,
           notes_resolve self (Family.get_note_list family) notes ->
           marriage_block_wanted self family = true ->
           exists rest,
             dump_marriage gramps self family =
             Ok tt
               (marriage_header self family
                ++ parent_event_rows gramps self (sgettext self "Marriage")
                     (first_family_marriage
                        (zip (Family.get_event_ref_list family) evs))
                ++ rest))
     /\ (forall e, first_marriage evs = Some e ->
           exists i, evs !! i = Some e
             /\ Event.get_type e = EventType.MARRIAGE
             /\ forall j e', (j < i)%nat -> evs !! j = Some e' ->
                  Event.get_type e' ≠ EventType.MARRIAGE)
     /\ (forall e,
           first_family_marriage (zip (Family.get_event_ref_list family) evs)
             = Some e ->
           exists i r,
             zip (Family.get_event_ref_list family) evs !! i = Some (r, e)
             /\ Event.get_type e = EventType.MARRIAGE
             /\ (EventRef.get_role r = EventRoleType.FAMILY
                 \/ EventRef.get_role r = EventRoleType.PRIMARY)
             /\ forall j re, (j < i)%nat ->
                  zip (Family.get_event_ref_list family) evs !! j = Some re ->
                  is_family_marriage re = false))
  /\ (forall gramps self index person_handle person out,
        person_map (db self) !! person_handle = Some person ->
        incChiMar self = true ->
        dump_child gramps self index person_handle = Ok tt out ->
        exists head groups,
          out = head ++ concat groups
          /\ length groups = length (Person.get_family_handle_list person)
          /\ forall i family_handle group,
               Person.get_family_handle_list person !! i
                 = Some family_handle ->
               groups !! i = Some group ->
               dump_child_family gramps self person_handle
                 (Z.of_nat (length (Person.get_family_handle_list person)))
                 (Z.of_nat i) family_handle
                 = Ok (Z.of_nat i + 1) group)
  /\ exists gramps self index person_handle person family_handle family
       event_ref e e',
       person_map (db self) !! person_handle = Some person
       /\ family_handle ∈ Person.get_family_handle_list person
       /\ family_map (db self) !! family_handle = Some family
       /\ event_ref ∈ Family.get_event_ref_list family
       /\ event_map (db self) !! EventRef.ref event_ref = Some e
       /\ Event.get_type e = EventType.MARRIAGE
       /\ EventRef.get_role event_ref = EventRoleType.WITNESS
       /\ e' ≠ e
       /\ (exists head spouse_row,
             dump_child gramps self index person_handle =
             Ok tt
               (head ++ spouse_row
                ++ child_event_rows gramps self "FGR-TextChild2"
                     (sgettext self "Marriage") (Some e)))
       /\ (exists rest,
             dump_marriage gramps self family =
             Ok tt
               (marriage_header self family
                ++ parent_event_rows gramps self (sgettext self "Marriage")
                     (Some e')
                ++ rest)).
Proof.
  split; [|split].
  - intros gramps self person_handle families index family_handle family evs
      Hfam Hev.
    split; [|split; [|split]].
    + intros idx out.
      rewrite (dump_child_family_resolved _ _ _ _ _ _ _ _ Hfam Hev).
      intros Hout.
      apply bind_inv_Ok in Hout as ([] & spouse_row & ? & _ & Hrows & ->).
      injection Hrows as _ <-. by exists spouse_row.
    + intros notes Hnotes Hwanted.
      rewrite (dump_marriage_resolved _ _ _ _ _ Hev Hnotes), Hwanted.
      eauto.
    + unfold first_marriage. intros e He.
      destruct (find_first _ _ _ He) as (i & Hi & Hm & Hlt).
      exists i. split; [done|].
      split; [by apply bool_decide_eq_true in Hm|].
      intros j e' Hj He'. specialize (Hlt j e' Hj He').
      by apply bool_decide_eq_false in Hlt.
    + unfold first_family_marriage. intros e He.
      destruct (List.find is_family_marriage _) as [[r e']|] eqn:Hfind;
        [|done].
      injection He as ->.
      destruct (find_first _ _ _ Hfind) as (i & Hi & Hq & Hlt).
      exists i, r. split; [done|]. unfold is_family_marriage in Hq.
      apply andb_true_iff in Hq as [Ht Hr].
      apply bool_decide_eq_true in Ht. apply orb_true_iff in Hr.
      split; [done|]. split; [|done].
      destruct Hr as [Hr|Hr]; apply bool_decide_eq_true in Hr; auto.
  - intros gramps self index person_handle person out.
    apply dump_child_families.
  - exists Sample.gramps, Sample.with_marriages, 1, "p-john", Sample.john,
      "f-1", Sample.family_1, (Sample.as_witness 5 "e-m0"), Sample.witnessed,
      Sample.wedding.
    split; [reflexivity|]. split; [apply list_elem_of_here|].
    split; [reflexivity|]. split; [apply list_elem_of_here|].
    split; [reflexivity|]. split; [reflexivity|]. split; [reflexivity|].
    split; [discriminate|]. split.
    + exists (take 54 (calls (dump_child Sample.gramps Sample.with_marriages
                                1 "p-john"))),
        (take 16 (drop 54 (calls (dump_child Sample.gramps
                                    Sample.with_marriages 1 "p-john")))).
      by vm_compute.
    + eexists. by vm_compute.
Qed.


(** ** A child whose group is not closed by its last row *)

(** C8, at two children of the sample database, with the marriages of the
    children included and missing information not shown.  Tom has one
    family, with a marriage and no recorded wife: his name row already has
    the closing border although the marriage row follows it.  Pat has two
    families, the second with no recorded spouse and no event: the row of
    the spouse of the first family is the last row of the group and has the
    open border. *)
Theorem dump_child_border_not_closed :
  (exists out,
     dump_child Sample.gramps Sample.with_marriages 1 "p-tom"
       = Ok tt out
     /\ leading_styles out = ["FGR-TextChild2"; "FGR-TextChild2"]
     /\ closed_by_last (leading_styles out) = false)
  /\ (exists out,
        dump_child Sample.gramps Sample.with_marriages 3
          "p-pat" = Ok tt out
        /\ leading_styles out = ["FGR-TextChild1"; "FGR-TextChild1"]
        /\ closed_by_last (leading_styles out) = false).
Proof. split; eexists; (split; [by vm_compute|]); by vm_compute. Qed.

(** ** The theorems at the sample database *)

Lemma dump_marriage_first_family_marriage_sample :
  events_resolve Sample.with_marriages
    (Family.get_event_ref_list Sample.family_1) Sample.family_1_events
  /\ first_family_marriage
       (zip (Family.get_event_ref_list Sample.family_1)
          Sample.family_1_events) = Some Sample.wedding
  /\ other_events Sample.family_1_events = [Sample.divorce]
  /\ dump_marriage Sample.gramps Sample.with_marriages Sample.family_1 =
     Ok tt
       (marriage_header Sample.with_marriages Sample.family_1
        ++ parent_event_rows Sample.gramps Sample.with_marriages "Marriage"
             (Some Sample.wedding)
        ++ other_event_rows Sample.gramps Sample.with_marriages Sample.divorce
        ++ [end_table]).
Proof.
  assert (events_resolve Sample.with_marriages
            (Family.get_event_ref_list Sample.family_1)
            Sample.family_1_events) as Hev
    by (repeat constructor).
  split; [exact Hev|]. split; [reflexivity|]. split; [reflexivity|].
  exact (proj1 (dump_marriage_first_family_marriage Sample.gramps
                  Sample.with_marriages Sample.family_1
                  Sample.family_1_events [] Hev ltac:(constructor) eq_refl)).
Defined.

Lemma dump_marriage_written_iff_sample :
  exists rest,
    dump_marriage Sample.gramps Sample.with_marriages Sample.family_5 =
    Ok tt (marriage_header Sample.with_marriages Sample.family_5
           ++ empty_event_row "Marriage" ++ rest).
Proof.
  refine (proj2 (dump_marriage_written_iff Sample.gramps
                   Sample.with_marriages Sample.family_5 [Sample.witnessed] []
                   _ ltac:(constructor)) _ eq_refl).
  - by repeat constructor.
  - by vm_compute.
Defined.

Lemma dump_parent_absent_sample :
  truthy None = false
  /\ dump_parent Sample.gramps Sample.with_marriages "Wife" None = Ok tt []
  /\ dump_parent Sample.gramps Sample.with_missing "Wife" None =
     Ok tt (placeholder_block Sample.gramps Sample.with_missing "Wife").
Proof.
  split; [reflexivity|]. split.
  - exact (proj1 (dump_parent_absent Sample.gramps Sample.with_marriages
                    "Wife" None eq_refl) eq_refl).
  - exact (proj2 (dump_parent_absent Sample.gramps Sample.with_missing
                    "Wife" None eq_refl) eq_refl).
Defined.

Lemma dump_family_generation_titles_sample :
  untranslated "Family Group Report - Generation %d"
    = "Family Group Report - Generation %d"
  /\ untranslated "Family Group Report" = "Family Group Report"
  /\ (exists rest,
        calls (dump_family Sample.gramps Sample.with_generations 2 "f-1" 1) =
        title_paragraph "Family Group Report - Generation 1" ++ rest)
  /\ (exists rest,
        calls (dump_family Sample.gramps Sample.with_marriages 2 "f-1" 1) =
        title_paragraph "Family Group Report" ++ rest)
  /\ occurs_in
       (page_break :: title_paragraph "Family Group Report - Generation 2")
       (calls (dump_family Sample.gramps Sample.with_generations 2 "f-1" 1)).
Proof.
  split; [reflexivity|]. split; [reflexivity|].
  split; [|split].
  - exact (proj1 (dump_family_generation_titles Sample.gramps
                    Sample.with_generations 1 "f-1" 1 eq_refl eq_refl)
             eq_refl).
  - exact (proj1 (proj2 (dump_family_generation_titles Sample.gramps
                           Sample.with_marriages 1 "f-1" 1 eq_refl eq_refl))
             eq_refl).
  - refine (proj2 (proj2 (proj2 (dump_family_generation_titles Sample.gramps
                                   Sample.with_generations 0 "f-1" 1
                                   eq_refl eq_refl)))
              Sample.family_1 (ChildRef.mk "p-tom") Sample.tom "f-2" _
              eq_refl eq_refl eq_refl _ eq_refl _ _ _).
    + apply list_elem_of_here.
    + apply list_elem_of_here.
    + discriminate.
    + by vm_compute.
Defined.

Lemma write_report_pages_sample :
  write_report Sample.gramps Sample.with_generations 2 =
    Ok tt
      ([begin_progress "Family Group Report" "Writing families" 2]
       ++ concat (map family_page Sample.sections)
       ++ [end_progress])
  /\ ticks (concat (map family_page Sample.sections)) = 2%nat
  /\ write_report Sample.gramps Sample.on_empty_database 2 =
     Ok tt [ start_paragraph "FGR-Title";
             write_text "Family Group Report" None;
             end_paragraph ].
Proof.
  assert (Forall2
            (fun h o =>
               dump_family Sample.gramps Sample.with_generations 2 h 1
                 = Ok tt o)
            ["f-1"; "f-2"] Sample.sections) as Hall.
  { repeat constructor; by vm_compute. }
  destruct (write_report_pages Sample.gramps Sample.with_generations 2
              ["f-1"; "f-2"] [] Sample.sections eq_refl Hall)
    as (Hreport & Hticks & _).
  split; [exact Hreport|]. split; [exact Hticks|].
  exact (proj1 (write_report_pages Sample.gramps Sample.on_empty_database 2
                  [] [] [] eq_refl ltac:(constructor))).
Defined.

Lemma dump_family_no_children_sample :
  Family.get_child_ref_list Sample.family_2 = []
  /\ dump_family Sample.gramps Sample.with_generations 1 "f-2" 1 =
     parents_section Sample.gramps Sample.with_generations Sample.family_2 1
  /\ Forall (fun c => in_children_table c = false)
       (calls (dump_family Sample.gramps Sample.with_generations 1 "f-2" 1)).
Proof.
  split; [reflexivity|].
  exact (dump_family_no_children Sample.gramps Sample.with_generations 0
           "f-2" 1 Sample.family_2 eq_refl eq_refl).
Defined.

Lemma dump_family_children_labels_sample :
  exists parents groups rest,
    parents_section Sample.gramps Sample.with_marriages Sample.family_1 1
      = Ok tt parents
    /\ calls (dump_family Sample.gramps Sample.with_marriages 1 "f-1" 1) =
       parents ++ children_header Sample.with_marriages ++ concat groups
         ++ [end_table] ++ rest
    /\ (recursive Sample.with_marriages = false -> rest = [])
    /\ length groups = length (Family.get_child_ref_list Sample.family_1)
    /\ forall i child_ref group,
         Family.get_child_ref_list Sample.family_1 !! i = Some child_ref ->
         groups !! i = Some group ->
         dump_child Sample.gramps Sample.with_marriages (1 + Z.of_nat i)
           (ChildRef.ref child_ref) = Ok tt group
         /\ exists person style cells,
              person_map (db Sample.with_marriages) !! ChildRef.ref child_ref
                = Some person
              /\ group =
                 [ start_row; start_cell style 1;
                   start_paragraph "FGR-ChildText";
                   write_text (pretty (1 + Z.of_nat i)
                               +:+ sex_code (Person.get_gender person))
                     None ]
                 ++ cells.
Proof.
  refine (dump_family_children_labels Sample.gramps Sample.with_marriages 0
            "f-1" 1 Sample.family_1 _ eq_refl eq_refl eq_refl eq_refl _ _).
  - discriminate.
  - by vm_compute.
Defined.

Lemma child_marriage_row_any_role_sample :
  first_marriage Sample.family_1_events = Some Sample.witnessed
  /\ first_family_marriage
       (zip (Family.get_event_ref_list Sample.family_1)
          Sample.family_1_events) = Some Sample.wedding
  /\ (exists spouse_row,
        calls (dump_child_family Sample.gramps Sample.with_marriages "p-john"
                 1 0 "f-1") =
        spouse_row
        ++ child_marriage_rows Sample.gramps Sample.with_marriages (0 + 1) 1
             (first_marriage Sample.family_1_events))
  /\ (exists rest,
        dump_marriage Sample.gramps Sample.with_marriages Sample.family_1 =
        Ok tt
          (marriage_header Sample.with_marriages Sample.family_1
           ++ parent_event_rows Sample.gramps Sample.with_marriages "Marriage"
                (first_family_marriage
                   (zip (Family.get_event_ref_list Sample.family_1)
                      Sample.family_1_events))
           ++ rest))
  /\ (exists head groups,
        calls (dump_child Sample.gramps Sample.with_marriages 1 "p-john") =
        head ++ concat groups
        /\ length groups = 1%nat
        /\ forall i family_handle group,
             ["f-1"] !! i = Some family_handle ->
             groups !! i = Some group ->
             dump_child_family Sample.gramps Sample.with_marriages "p-john"
               1 (Z.of_nat i) family_handle = Ok (Z.of_nat i + 1) group).
Proof.
  assert (events_resolve Sample.with_marriages
            (Family.get_event_ref_list Sample.family_1)
            Sample.family_1_events) as Hev
    by (repeat constructor).
  destruct (proj1 child_marriage_row_any_role Sample.gramps
              Sample.with_marriages "p-john" 1 0 "f-1" Sample.family_1
              Sample.family_1_events eq_refl Hev)
    as (Hchild & Hparents & _).
  split; [reflexivity|]. split; [reflexivity|].
  split; [|split].
  - apply (Hchild 1). by vm_compute.
  - apply (Hparents []); [constructor | reflexivity].
  - apply (proj1 (proj2 child_marriage_row_any_role) Sample.gramps
             Sample.with_marriages 1 "p-john" Sample.john);
      [reflexivity | reflexivity | by vm_compute].
Defined.

